(** * ATmega128 fan and servo controller: model of [ATmega128_fan.c]

    The firmware has two pieces of code that touch the same globals: the SPI
    transfer-complete handler [ISR(SPI_STC_vect)] and the polling loop of
    [main].  Both are embedded as state transformers over one record that
    holds the volatile globals, the I/O registers the code drives and the
    two debounce latches local to [main].

    Integers are [Z]; a store into a [uint8_t] or [uint16_t] object is
    written with its wrap-around.  The busy waits [_delay_ms] run with
    interrupts enabled ([sei()] precedes the loop), so the handler can run
    inside them: a wait takes the list of bytes whose transfers complete
    while it spins.  The wait that ends an iteration is the gap between two
    iterations, where handler runs appear as events of their own.

    The runs of this model ([run], [reachable]) are those in which every
    handler run falls between two passes or inside one of the two debounce
    waits, and in which the two byte accesses of a 16-bit global are not
    separated by a handler run.  The program has more interleavings than
    these, since nothing masks the interrupt inside a pass.  One of them is
    modelled on its own: the read of [servo_target_ocr] by the servo
    tracking block, split by the handler ([read_target_split]). *)

From Stdlib Require Import ZArith List Bool Lia QArith Qround.
Import ListNotations.
Local Open Scope Z_scope.

(** ** Constants *)

Definition STATUS_RUNNING : Z := 222.
Definition STATUS_READY : Z := 111.
Definition STATUS_HOMING_OFF : Z := 0.

(** Bit numbers of [<avr/io.h>] for the ATmega128 (device header, not part
    of the repository). *)
Definition SWITCH_SPEED_PIN : Z := 0.   (* PD0 *)
Definition SWITCH_TOGGLE_PIN : Z := 1.  (* PD1 *)
Definition LED_LOW_PIN : Z := 0.        (* PC0 *)
Definition LED_MEDIUM_PIN : Z := 1.     (* PC1 *)
Definition LED_HIGH_PIN : Z := 2.       (* PC2 *)
Definition FAN_PWM_PIN : Z := 3.        (* PE3 *)
Definition COM3A1 : Z := 7.
Definition WGM31 : Z := 1.
Definition WGM33 : Z := 4.
Definition WGM32 : Z := 3.
Definition CS30 : Z := 0.

Definition ICR_8KHZ : Z := 1999.

(** [(uint16_t)(ICR_8KHZ * f)]: the product is a [double] constant and the
    cast truncates it.  The exact products are 399.8, 799.6 and 1199.4, so
    the rounding of the binary fractions cannot reach an integer and the
    truncation is the floor of the exact rational. *)
Definition duty_of (f : Q) : Z := Qfloor (inject_Z ICR_8KHZ * f) mod 65536.
Definition DUTY_LOW : Z := duty_of (2 # 10).
Definition DUTY_MEDIUM : Z := duty_of (4 # 10).
Definition DUTY_HIGH : Z := duty_of (6 # 10).

Definition SERVO_CW_MAX : Z := 610.
Definition SERVO_CCW_MAX : Z := 140.
Definition SERVO_CENTER : Z := 375.

(** ** State *)

Record State : Type := mkState {
  (* volatile globals *)
  motor_running : Z;
  speed_level : Z;
  user_ready_flag : Z;
  servo_homing_required : Z;
  servo_current_ocr : Z;
  servo_target_ocr : Z;
  current_spi_status : Z;
  (* I/O registers *)
  SPDR : Z;
  OCR1A : Z;
  OCR3A : Z;
  ICR3 : Z;
  TCCR3A : Z;
  TCCR3B : Z;
  LED_PORT : Z;
  FAN_PWM_PORT : Z;
  (* locals of main *)
  toggle_button_pressed : Z;
  speed_button_pressed : Z
}.

Definition set_motor_running (v : Z) (s : State) : State :=
  mkState v (speed_level s) (user_ready_flag s) (servo_homing_required s)
    (servo_current_ocr s) (servo_target_ocr s) (current_spi_status s)
    (SPDR s) (OCR1A s) (OCR3A s) (ICR3 s) (TCCR3A s) (TCCR3B s)
    (LED_PORT s) (FAN_PWM_PORT s)
    (toggle_button_pressed s) (speed_button_pressed s).

Definition set_speed_level (v : Z) (s : State) : State :=
  mkState (motor_running s) v (user_ready_flag s) (servo_homing_required s)
    (servo_current_ocr s) (servo_target_ocr s) (current_spi_status s)
    (SPDR s) (OCR1A s) (OCR3A s) (ICR3 s) (TCCR3A s) (TCCR3B s)
    (LED_PORT s) (FAN_PWM_PORT s)
    (toggle_button_pressed s) (speed_button_pressed s).

Definition set_user_ready_flag (v : Z) (s : State) : State :=
  mkState (motor_running s) (speed_level s) v (servo_homing_required s)
    (servo_current_ocr s) (servo_target_ocr s) (current_spi_status s)
    (SPDR s) (OCR1A s) (OCR3A s) (ICR3 s) (TCCR3A s) (TCCR3B s)
    (LED_PORT s) (FAN_PWM_PORT s)
    (toggle_button_pressed s) (speed_button_pressed s).

Definition set_servo_homing_required (v : Z) (s : State) : State :=
  mkState (motor_running s) (speed_level s) (user_ready_flag s) v
    (servo_current_ocr s) (servo_target_ocr s) (current_spi_status s)
    (SPDR s) (OCR1A s) (OCR3A s) (ICR3 s) (TCCR3A s) (TCCR3B s)
    (LED_PORT s) (FAN_PWM_PORT s)
    (toggle_button_pressed s) (speed_button_pressed s).

Definition set_servo_current_ocr (v : Z) (s : State) : State :=
  mkState (motor_running s) (speed_level s) (user_ready_flag s)
    (servo_homing_required s) v (servo_target_ocr s) (current_spi_status s)
    (SPDR s) (OCR1A s) (OCR3A s) (ICR3 s) (TCCR3A s) (TCCR3B s)
    (LED_PORT s) (FAN_PWM_PORT s)
    (toggle_button_pressed s) (speed_button_pressed s).

Definition set_servo_target_ocr (v : Z) (s : State) : State :=
  mkState (motor_running s) (speed_level s) (user_ready_flag s)
    (servo_homing_required s) (servo_current_ocr s) v (current_spi_status s)
    (SPDR s) (OCR1A s) (OCR3A s) (ICR3 s) (TCCR3A s) (TCCR3B s)
    (LED_PORT s) (FAN_PWM_PORT s)
    (toggle_button_pressed s) (speed_button_pressed s).

Definition set_current_spi_status (v : Z) (s : State) : State :=
  mkState (motor_running s) (speed_level s) (user_ready_flag s)
    (servo_homing_required s) (servo_current_ocr s) (servo_target_ocr s) v
    (SPDR s) (OCR1A s) (OCR3A s) (ICR3 s) (TCCR3A s) (TCCR3B s)
    (LED_PORT s) (FAN_PWM_PORT s)
    (toggle_button_pressed s) (speed_button_pressed s).

Definition set_SPDR (v : Z) (s : State) : State :=
  mkState (motor_running s) (speed_level s) (user_ready_flag s)
    (servo_homing_required s) (servo_current_ocr s) (servo_target_ocr s)
    (current_spi_status s)
    v (OCR1A s) (OCR3A s) (ICR3 s) (TCCR3A s) (TCCR3B s)
    (LED_PORT s) (FAN_PWM_PORT s)
    (toggle_button_pressed s) (speed_button_pressed s).

Definition set_OCR1A (v : Z) (s : State) : State :=
  mkState (motor_running s) (speed_level s) (user_ready_flag s)
    (servo_homing_required s) (servo_current_ocr s) (servo_target_ocr s)
    (current_spi_status s)
    (SPDR s) v (OCR3A s) (ICR3 s) (TCCR3A s) (TCCR3B s)
    (LED_PORT s) (FAN_PWM_PORT s)
    (toggle_button_pressed s) (speed_button_pressed s).

Definition set_OCR3A (v : Z) (s : State) : State :=
  mkState (motor_running s) (speed_level s) (user_ready_flag s)
    (servo_homing_required s) (servo_current_ocr s) (servo_target_ocr s)
    (current_spi_status s)
    (SPDR s) (OCR1A s) v (ICR3 s) (TCCR3A s) (TCCR3B s)
    (LED_PORT s) (FAN_PWM_PORT s)
    (toggle_button_pressed s) (speed_button_pressed s).

Definition set_ICR3 (v : Z) (s : State) : State :=
  mkState (motor_running s) (speed_level s) (user_ready_flag s)
    (servo_homing_required s) (servo_current_ocr s) (servo_target_ocr s)
    (current_spi_status s)
    (SPDR s) (OCR1A s) (OCR3A s) v (TCCR3A s) (TCCR3B s)
    (LED_PORT s) (FAN_PWM_PORT s)
    (toggle_button_pressed s) (speed_button_pressed s).

Definition set_TCCR3A (v : Z) (s : State) : State :=
  mkState (motor_running s) (speed_level s) (user_ready_flag s)
    (servo_homing_required s) (servo_current_ocr s) (servo_target_ocr s)
    (current_spi_status s)
    (SPDR s) (OCR1A s) (OCR3A s) (ICR3 s) v (TCCR3B s)
    (LED_PORT s) (FAN_PWM_PORT s)
    (toggle_button_pressed s) (speed_button_pressed s).

Definition set_TCCR3B (v : Z) (s : State) : State :=
  mkState (motor_running s) (speed_level s) (user_ready_flag s)
    (servo_homing_required s) (servo_current_ocr s) (servo_target_ocr s)
    (current_spi_status s)
    (SPDR s) (OCR1A s) (OCR3A s) (ICR3 s) (TCCR3A s) v
    (LED_PORT s) (FAN_PWM_PORT s)
    (toggle_button_pressed s) (speed_button_pressed s).

Definition set_LED_PORT (v : Z) (s : State) : State :=
  mkState (motor_running s) (speed_level s) (user_ready_flag s)
    (servo_homing_required s) (servo_current_ocr s) (servo_target_ocr s)
    (current_spi_status s)
    (SPDR s) (OCR1A s) (OCR3A s) (ICR3 s) (TCCR3A s) (TCCR3B s)
    v (FAN_PWM_PORT s)
    (toggle_button_pressed s) (speed_button_pressed s).

Definition set_FAN_PWM_PORT (v : Z) (s : State) : State :=
  mkState (motor_running s) (speed_level s) (user_ready_flag s)
    (servo_homing_required s) (servo_current_ocr s) (servo_target_ocr s)
    (current_spi_status s)
    (SPDR s) (OCR1A s) (OCR3A s) (ICR3 s) (TCCR3A s) (TCCR3B s)
    (LED_PORT s) v
    (toggle_button_pressed s) (speed_button_pressed s).

Definition set_toggle_button_pressed (v : Z) (s : State) : State :=
  mkState (motor_running s) (speed_level s) (user_ready_flag s)
    (servo_homing_required s) (servo_current_ocr s) (servo_target_ocr s)
    (current_spi_status s)
    (SPDR s) (OCR1A s) (OCR3A s) (ICR3 s) (TCCR3A s) (TCCR3B s)
    (LED_PORT s) (FAN_PWM_PORT s)
    v (speed_button_pressed s).

Definition set_speed_button_pressed (v : Z) (s : State) : State :=
  mkState (motor_running s) (speed_level s) (user_ready_flag s)
    (servo_homing_required s) (servo_current_ocr s) (servo_target_ocr s)
    (current_spi_status s)
    (SPDR s) (OCR1A s) (OCR3A s) (ICR3 s) (TCCR3A s) (TCCR3B s)
    (LED_PORT s) (FAN_PWM_PORT s)
    (toggle_button_pressed s) v.

(** Stores into 8- and 16-bit objects. *)
Definition uint8 (x : Z) : Z := x mod 256.
Definition uint16 (x : Z) : Z := x mod 65536.

(** [1 << n] *)
Definition bit (n : Z) : Z := Z.shiftl 1 n.

(** ** Fan functions *)

(** [update_leds]: the three LED bits are cleared; while the motor runs the
    [switch] falls through from the case of the current level. *)
Definition update_leds (s : State) : State :=
  let s1 :=
    set_LED_PORT
      (Z.land (LED_PORT s)
         (Z.lnot (Z.lor (Z.lor (bit LED_LOW_PIN) (bit LED_MEDIUM_PIN))
                    (bit LED_HIGH_PIN)))) s in
  if motor_running s1 =? 0 then s1
  else if speed_level s1 =? 2 then
    set_LED_PORT
      (Z.lor (Z.lor (Z.lor (LED_PORT s1) (bit LED_HIGH_PIN))
                (bit LED_MEDIUM_PIN)) (bit LED_LOW_PIN)) s1
  else if speed_level s1 =? 1 then
    set_LED_PORT
      (Z.lor (Z.lor (LED_PORT s1) (bit LED_MEDIUM_PIN)) (bit LED_LOW_PIN)) s1
  else if speed_level s1 =? 0 then
    set_LED_PORT (Z.lor (LED_PORT s1) (bit LED_LOW_PIN)) s1
  else s1.

Definition set_fan_speed (level : Z) (s : State) : State :=
  let s1 :=
    if level =? 0 then set_OCR3A DUTY_HIGH s
    else if level =? 1 then set_OCR3A DUTY_MEDIUM s
    else if level =? 2 then set_OCR3A DUTY_LOW s
    else s in
  update_leds s1.

Definition start_fan (s : State) : State :=
  let s1 := set_motor_running 1 s in
  let s2 := set_speed_level 0 s1 in
  let s3 := set_TCCR3A (Z.lor (TCCR3A s2) (bit COM3A1)) s2 in
  let s4 := set_fan_speed (speed_level s3) s3 in
  set_TCCR3B (Z.lor (TCCR3B s4) (bit CS30)) s4.

Definition stop_fan (s : State) : State :=
  let s1 := set_motor_running 0 s in
  let s2 := set_TCCR3B (Z.land (TCCR3B s1) (Z.lnot (bit CS30))) s1 in
  let s3 := set_TCCR3A (Z.land (TCCR3A s2) (Z.lnot (bit COM3A1))) s2 in
  let s4 :=
    set_FAN_PWM_PORT (Z.land (FAN_PWM_PORT s3) (Z.lnot (bit FAN_PWM_PIN))) s3 in
  let s5 := set_speed_level 0 s4 in
  update_leds s5.

(** ** SPI handler *)

(** The angle command's arithmetic, done in [long]; [/] truncates.  *)
Definition angle_to_ocr (received_data : Z) : Z :=
  Z.quot ((received_data - 10) * (SERVO_CW_MAX - SERVO_CCW_MAX)) 160
  + SERVO_CCW_MAX.

(** [ISR(SPI_STC_vect)]; [received_data] is the byte read from [SPDR]. *)
Definition SPI_STC_vect (received_data : Z) (s : State) : State :=
  let s1 :=
    if received_data =? 200 then
      let s2 := if motor_running s =? 0 then s else stop_fan s in
      set_servo_homing_required 1 (set_user_ready_flag 0 s2)
    else if (10 <=? received_data) && (received_data <=? 170) then
      if (user_ready_flag s =? 1) && (motor_running s =? 1) then
        set_servo_target_ocr (uint16 (angle_to_ocr received_data)) s
      else s
    else if received_data =? 255 then
      if current_spi_status s =? STATUS_READY then start_fan s else s
    else s in
  set_SPDR (current_spi_status s1) s1.

(** [_delay_ms] with interrupts enabled: the handler runs once for each
    byte whose transfer completes during the wait. *)
Definition delay_ms (rx : list Z) (s : State) : State :=
  fold_left (fun st b => SPI_STC_vect b st) rx s.

(** ** Main loop *)

(** What one pass of the [while (1)] body reads from outside: the value of
    [SWITCH_PIN] at each of its two reads, and the bytes handled during
    each of the two 50 ms debounce waits. *)
Record LoopInput : Type := mkInput {
  pind_toggle : Z;
  rx_toggle : list Z;
  pind_speed : Z;
  rx_speed : list Z
}.

(** PD1 button: system on / off. *)
Definition toggle_button_block (pind : Z) (rx : list Z) (s : State) : State :=
  if negb (Z.land pind (bit SWITCH_TOGGLE_PIN) =? 0) then
    if toggle_button_pressed s =? 0 then
      let s1 := set_toggle_button_pressed 1 s in
      let s2 := delay_ms rx s1 in
      if user_ready_flag s2 =? 1 then
        let s3 := set_user_ready_flag 0 s2 in
        let s4 := if motor_running s3 =? 0 then s3 else stop_fan s3 in
        set_servo_homing_required 1 s4
      else
        let s3 := set_user_ready_flag 1 s2 in
        let s4 := set_servo_target_ocr SERVO_CENTER s3 in
        set_servo_homing_required 1 s4
    else s
  else set_toggle_button_pressed 0 s.

(** PD0 button: next speed level (only reached while the motor runs). *)
Definition speed_button_block (pind : Z) (rx : list Z) (s : State) : State :=
  if negb (Z.land pind (bit SWITCH_SPEED_PIN) =? 0) then
    if speed_button_pressed s =? 0 then
      let s1 := set_speed_button_pressed 1 s in
      let s2 := delay_ms rx s1 in
      let s3 := set_speed_level (uint8 (speed_level s2 + 1)) s2 in
      let s4 := if 2 <? speed_level s3 then set_speed_level 0 s3 else s3 in
      set_fan_speed (speed_level s4) s4
    else s
  else set_speed_button_pressed 0 s.

(** Servo tracking while the motor runs: one count towards the target. *)
Definition servo_track (s : State) : State :=
  if servo_current_ocr s <? servo_target_ocr s then
    let s1 := set_servo_current_ocr (uint16 (servo_current_ocr s + 1)) s in
    set_OCR1A (servo_current_ocr s1) s1
  else if servo_target_ocr s <? servo_current_ocr s then
    let s1 := set_servo_current_ocr (uint16 (servo_current_ocr s - 1)) s in
    set_OCR1A (servo_current_ocr s1) s1
  else s.

(** Return to 90 degrees while the motor is stopped. *)
Definition servo_home (s : State) : State :=
  if negb (servo_homing_required s =? 0) || (user_ready_flag s =? 1) then
    if servo_current_ocr s <? SERVO_CENTER then
      let s1 := set_servo_current_ocr (uint16 (servo_current_ocr s + 1)) s in
      set_OCR1A (servo_current_ocr s1) s1
    else if SERVO_CENTER <? servo_current_ocr s then
      let s1 := set_servo_current_ocr (uint16 (servo_current_ocr s - 1)) s in
      set_OCR1A (servo_current_ocr s1) s1
    else set_servo_homing_required 0 s
  else s.

(** The status decision of the stopped branch. *)
Definition stopped_status (s : State) : State :=
  if (user_ready_flag s =? 1) && (servo_current_ocr s =? SERVO_CENTER) then
    set_current_spi_status STATUS_READY s
  else set_current_spi_status STATUS_HOMING_OFF s.

Definition fan_state_block (pind : Z) (rx : list Z) (s : State) : State :=
  if negb (motor_running s =? 0) then
    let s1 := speed_button_block pind rx s in
    let s2 := servo_track s1 in
    set_current_spi_status STATUS_RUNNING s2
  else
    let s1 := servo_home s in
    stopped_status s1.

(** One pass of the loop body, up to its closing [_delay_ms(2)]. *)
Definition main_loop_body (i : LoopInput) (s : State) : State :=
  fan_state_block (pind_speed i) (rx_speed i)
    (toggle_button_block (pind_toggle i) (rx_toggle i) s).

(** A pass during which no transfer completes. *)
Definition poll (pind1 pind2 : Z) : LoopInput := mkInput pind1 [] pind2 [].

(** ** Start-up *)

(** Globals as their initialisers leave them, registers as after reset. *)
Definition power_on : State := mkState 0 0 0 0 0 0 0 0 0 0 0 0 0 0 0 0 0.

Definition init_timer3_fan_pwm (s : State) : State :=
  let s1 := set_TCCR3A (bit WGM31) s in
  let s2 := set_TCCR3B (Z.lor (bit WGM33) (bit WGM32)) s1 in
  set_ICR3 ICR_8KHZ s2.

(** [main] before the loop; the port, SPI and servo-timer set-up writes
    only configuration registers that the rest of the program never reads. *)
Definition main_startup (s : State) : State :=
  let s1 := init_timer3_fan_pwm s in
  let s2 := set_servo_current_ocr SERVO_CENTER s1 in
  let s3 := set_servo_target_ocr SERVO_CENTER s2 in
  let s4 := set_OCR1A (servo_current_ocr s3) s3 in
  let s5 := stop_fan s4 in
  let s6 := set_user_ready_flag 0 s5 in
  let s7 := set_servo_homing_required 0 s6 in
  let s8 := set_SPDR STATUS_HOMING_OFF s7 in
  set_speed_button_pressed 0 (set_toggle_button_pressed 0 s8).

Definition initial_state : State := main_startup power_on.

(** ** Runs *)

Inductive Event : Type :=
| Iteration (i : LoopInput)   (* one pass of the loop body *)
| Transfer (b : Z).           (* a byte handled between two passes *)

Definition step (s : State) (e : Event) : State :=
  match e with
  | Iteration i => main_loop_body i s
  | Transfer b => SPI_STC_vect b s
  end.

Definition run (es : list Event) (s : State) : State := fold_left step es s.

(** The states of the runs of the model: passes with handler runs inside
    their two debounce waits, and handler runs between passes.  A handler
    run between two other statements of a pass, or between the two byte
    accesses of a 16-bit global, is not among these events. *)
Definition reachable (s : State) : Prop :=
  exists es, run es initial_state = s.

(** Runs in which every handler run falls between two passes. *)
Definition whole (e : Event) : Prop :=
  match e with
  | Iteration i => rx_toggle i = [] /\ rx_speed i = []
  | Transfer _ => True
  end.

Definition reachable_whole (s : State) : Prop :=
  exists es, Forall whole es /\ run es initial_state = s.

(** Passes without a toggle press: PD1 reads low and no transfer completes. *)
Definition released (i : LoopInput) : Prop :=
  Z.land (pind_toggle i) (bit SWITCH_TOGGLE_PIN) = 0
  /\ rx_toggle i = [] /\ rx_speed i = [].

Definition run_loop (ins : list LoopInput) (s : State) : State :=
  fold_left (fun st i => main_loop_body i st) ins s.

(** ** Derived notions used in the statements *)

(** The status that the flags and the servo position call for. *)
Definition status_for (s : State) : Z :=
  if negb (motor_running s =? 0) then STATUS_RUNNING
  else if (user_ready_flag s =? 1) && (servo_current_ocr s =? SERVO_CENTER)
       then STATUS_READY
       else STATUS_HOMING_OFF.

(** Timer 3 drives the fan pin: OC3A is connected and the clock runs. *)
Definition pwm_connected (s : State) : bool := Z.testbit (TCCR3A s) COM3A1.
Definition pwm_clocked (s : State) : bool := Z.testbit (TCCR3B s) CS30.
Definition fan_line (s : State) : bool := Z.testbit (FAN_PWM_PORT s) FAN_PWM_PIN.

(** One count from [c] towards [g]. *)
Definition toward (g c : Z) : Z :=
  if c <? g then c + 1 else if g <? c then c - 1 else c.

(** [n] counts from [c] towards [g], stopping there. *)
Definition toward_n (g c n : Z) : Z :=
  if c <=? g then Z.min (c + n) g else Z.max (c - n) g.

(** The fan speed table, indexed by level. *)
Definition duty_table (level : Z) : Z :=
  if level =? 0 then DUTY_HIGH
  else if level =? 1 then DUTY_MEDIUM
  else DUTY_LOW.

(** [set_fan_speed]'s [switch]: the duty written for a level, [old] when
    no case matches. *)
Definition switch_duty (level old : Z) : Z :=
  if level =? 0 then DUTY_HIGH
  else if level =? 1 then DUTY_MEDIUM
  else if level =? 2 then DUTY_LOW
  else old.

(** ** Invariant of the runs *)

Record Inv (s : State) : Prop := mkInv {
  inv_motor : motor_running s = 0 \/ motor_running s = 1;
  inv_ready : user_ready_flag s = 0 \/ user_ready_flag s = 1;
  inv_homing : servo_homing_required s = 0 \/ servo_homing_required s = 1;
  inv_level : 0 <= speed_level s <= 2;
  inv_current : SERVO_CCW_MAX <= servo_current_ocr s <= SERVO_CW_MAX;
  inv_target : SERVO_CCW_MAX <= servo_target_ocr s <= SERVO_CW_MAX;
  inv_status :
    current_spi_status s = STATUS_HOMING_OFF
    \/ current_spi_status s = STATUS_READY
    \/ current_spi_status s = STATUS_RUNNING;
  inv_off :
    motor_running s = 0 ->
    pwm_connected s = false /\ pwm_clocked s = false /\ fan_line s = false;
  inv_period : ICR3 s = ICR_8KHZ
}.

(** The homing block of the stopped branch is armed. *)
Definition homing_armed (s : State) : bool :=
  negb (servo_homing_required s =? 0) || (user_ready_flag s =? 1).



(** A stopped motor has speed level 0. *)
Definition level_cleared (s : State) : Prop :=
  motor_running s = 0 -> speed_level s = 0.

(** ** States used as examples *)

(** After the pass that sees the first toggle press: system on, servo
    centred, status 111. *)
Definition st_ready : State := run [Iteration (poll 2 0)] initial_state.

(** Then START, and one more pass: motor running, status 222. *)
Definition st_started : State :=
  run [Iteration (poll 2 0); Transfer 255] initial_state.
Definition st_running : State :=
  run [Iteration (poll 2 0); Transfer 255; Iteration (poll 0 0)]
    initial_state.

(** Toggle press, START, angle byte 170 and RESET: motor stopped, servo at
    375, target 610. *)
Definition st_reset_at_centre : State :=
  run [Iteration (poll 2 0); Transfer 255; Transfer 170; Transfer 200]
    initial_state.

(** The same with two passes before RESET: servo at 377, target 610. *)
Definition st_reset_off_centre : State :=
  run [Iteration (poll 2 0); Transfer 255; Transfer 170;
       Iteration (poll 0 0); Iteration (poll 0 0); Transfer 200]
    initial_state.

(** Toggle press, START, angle byte 10, 235 passes and RESET: system off,
    motor stopped, servo at 140. *)
Definition st_off_at_140 : State :=
  run ([Iteration (poll 2 0); Transfer 255; Transfer 10]
         ++ repeat (Iteration (poll 0 0)) 235%nat ++ [Transfer 200])
    initial_state.

(** Toggle press, START, then a pass that sees the speed button pressed
    and during whose debounce wait byte 200 is handled. *)
Definition st_preempted : State :=
  run [Iteration (poll 2 0); Transfer 255; Iteration (mkInput 0 [] 1 [200])]
    initial_state.

(** ** A read of the target split by the handler *)

(** [servo_target_ocr] is a [uint16_t] and the machine moves one byte at a
    time, so the read of it in the comparison of line 204 is two byte
    loads, the low byte first.  Interrupts stay enabled between the two
    loads.  [rx] lists the bytes whose handler runs fall between them: the
    value that the comparison sees is put together from the low byte of the
    target before these runs and the high byte of the target after them. *)
Definition read_target_split (rx : list Z) (s : State) : Z * State :=
  let lo := servo_target_ocr s mod 256 in
  let s1 := fold_left (fun st b => SPI_STC_vect b st) rx s in
  let hi := servo_target_ocr s1 / 256 in
  (hi * 256 + lo, s1).

(** The servo tracking block with its first read of the target split. *)
Definition servo_track_split (rx : list Z) (s : State) : State :=
  let (target, s1) := read_target_split rx s in
  if servo_current_ocr s1 <? target then
    let s2 := set_servo_current_ocr (uint16 (servo_current_ocr s1 + 1)) s1 in
    set_OCR1A (servo_current_ocr s2) s2
  else if servo_target_ocr s1 <? servo_current_ocr s1 then
    let s2 := set_servo_current_ocr (uint16 (servo_current_ocr s1 - 1)) s1 in
    set_OCR1A (servo_current_ocr s2) s2
  else s1.

Definition fan_state_block_split
    (pind : Z) (rx rx_read : list Z) (s : State) : State :=
  if negb (motor_running s =? 0) then
    let s1 := speed_button_block pind rx s in
    let s2 := servo_track_split rx_read s1 in
    set_current_spi_status STATUS_RUNNING s2
  else
    let s1 := servo_home s in
    stopped_status s1.

(** One pass of the loop body in which the handler runs for the bytes
    [rx_read] between the two byte loads of that read. *)
Definition main_loop_body_split
    (i : LoopInput) (rx_read : list Z) (s : State) : State :=
  fan_state_block_split (pind_speed i) (rx_speed i) rx_read
    (toggle_button_block (pind_toggle i) (rx_toggle i) s).

(** Toggle press, START, angle byte 170, 235 passes and angle byte 10:
    motor running, servo at 610, target 140. *)
Definition st_at_cw_limit : State :=
  run ([Iteration (poll 2 0); Transfer 255; Transfer 170]
         ++ repeat (Iteration (poll 0 0)) 235%nat ++ [Transfer 10])
    initial_state.

(** ** Set-up of the ports, of the SPI slave and of the servo timer *)

(** Bit numbers of [<avr/io.h>] used by the set-up functions. *)
Definition SERVO_PIN : Z := 5.     (* DDB5 *)
Definition SPI_PIN_SS : Z := 0.    (* DDB0 *)
Definition SPI_PIN_SCK : Z := 1.   (* DDB1 *)
Definition SPI_PIN_MOSI : Z := 2.  (* DDB2 *)
Definition SPI_PIN_MISO : Z := 3.  (* DDB3 *)
Definition SPE : Z := 6.
Definition SPIE : Z := 7.
Definition COM1A1 : Z := 7.
Definition WGM11 : Z := 1.
Definition WGM13 : Z := 4.
Definition WGM12 : Z := 3.
Definition CS11 : Z := 1.
Definition CS10 : Z := 0.

(** The configuration registers, written before the loop and never read
    by the rest of the program.  [SERVO_DDR] and [SPI_DDR] are both DDRB,
    [LED_DDR] is DDRC, [SWITCH_DDR] is DDRD and [FAN_PWM_DDR] is DDRE. *)
Record Config : Type := mkConfig {
  DDRB : Z;
  DDRC : Z;
  DDRD : Z;
  DDRE : Z;
  SPCR : Z;
  TCCR1A : Z;
  TCCR1B : Z;
  ICR1 : Z
}.

Definition init_ports (c : Config) : Config :=
  let ddre := Z.lor (DDRE c) (bit FAN_PWM_PIN) in
  let ddrc :=
    Z.lor (DDRC c)
      (Z.lor (Z.lor (bit LED_LOW_PIN) (bit LED_MEDIUM_PIN))
         (bit LED_HIGH_PIN)) in
  let ddrb := Z.lor (DDRB c) (bit SERVO_PIN) in
  let ddrd :=
    Z.land (DDRD c)
      (Z.lnot (Z.lor (bit SWITCH_SPEED_PIN) (bit SWITCH_TOGGLE_PIN))) in
  mkConfig ddrb ddrc ddrd ddre (SPCR c) (TCCR1A c) (TCCR1B c) (ICR1 c).

Definition init_spi_slave (c : Config) : Config :=
  let ddrb1 := Z.lor (DDRB c) (bit SPI_PIN_MISO) in
  let ddrb2 :=
    Z.land ddrb1
      (Z.lnot (Z.lor (Z.lor (bit SPI_PIN_SS) (bit SPI_PIN_SCK))
                 (bit SPI_PIN_MOSI))) in
  let spcr := Z.lor (SPCR c) (Z.lor (bit SPE) (bit SPIE)) in
  mkConfig ddrb2 (DDRC c) (DDRD c) (DDRE c) spcr
    (TCCR1A c) (TCCR1B c) (ICR1 c).

Definition init_timer1_servo (c : Config) : Config :=
  let tccr1a := Z.lor (TCCR1A c) (Z.lor (bit COM1A1) (bit WGM11)) in
  let tccr1b :=
    Z.lor (TCCR1B c)
      (Z.lor (Z.lor (Z.lor (bit WGM13) (bit WGM12)) (bit CS11)) (bit CS10)) in
  mkConfig (DDRB c) (DDRC c) (DDRD c) (DDRE c) (SPCR c) tccr1a tccr1b 4999.

(** The three set-up calls of [main] on these registers, in its order. *)
Definition main_config (c : Config) : Config :=
  init_spi_slave (init_timer1_servo (init_ports c)).

(** ** Patterns of the outputs *)

(** The mask that [update_leds] clears. *)
Definition LED_MASK : Z :=
  Z.lor (Z.lor (bit LED_LOW_PIN) (bit LED_MEDIUM_PIN)) (bit LED_HIGH_PIN).

(** The bits that the [switch] of [update_leds] sets. *)
Definition led_pattern (motor level : Z) : Z :=
  if motor =? 0 then 0
  else if level =? 2 then
    Z.lor (Z.lor (bit LED_HIGH_PIN) (bit LED_MEDIUM_PIN)) (bit LED_LOW_PIN)
  else if level =? 1 then Z.lor (bit LED_MEDIUM_PIN) (bit LED_LOW_PIN)
  else if level =? 0 then bit LED_LOW_PIN
  else 0.

(** What the output registers hold in every state of a run of the model. *)
Record Outputs (s : State) : Prop := mkOutputs {
  out_led : LED_PORT s = led_pattern (motor_running s) (speed_level s);
  out_tccr3a :
    TCCR3A s = if motor_running s =? 0 then bit WGM31
               else Z.lor (bit WGM31) (bit COM3A1);
  out_tccr3b :
    TCCR3B s = if motor_running s =? 0 then Z.lor (bit WGM33) (bit WGM32)
               else Z.lor (Z.lor (bit WGM33) (bit WGM32)) (bit CS30);
  out_duty : motor_running s <> 0 -> OCR3A s = duty_table (speed_level s);
  out_servo : OCR1A s = servo_current_ocr s;
  out_reply : SPDR s = 0 \/ SPDR s = 111 \/ SPDR s = 222;
  out_ready :
    current_spi_status s = STATUS_READY ->
    servo_current_ocr s = SERVO_CENTER
}.

(** Passes that read the toggle button pressed, with no transfer inside. *)
Definition toggle_held (i : LoopInput) : Prop :=
  Z.land (pind_toggle i) (bit SWITCH_TOGGLE_PIN) <> 0
  /\ rx_toggle i = [] /\ rx_speed i = [].

(** Passes that read the toggle button released and the speed button
    pressed, with no transfer inside. *)
Definition speed_held (i : LoopInput) : Prop :=
  Z.land (pind_toggle i) (bit SWITCH_TOGGLE_PIN) = 0
  /\ Z.land (pind_speed i) (bit SWITCH_SPEED_PIN) <> 0
  /\ rx_toggle i = [] /\ rx_speed i = [].

(** Passes during which no transfer completes. *)
Definition undisturbed (i : LoopInput) : Prop :=
  rx_toggle i = [] /\ rx_speed i = [].

(** * Proofs *)

Arguments bit : simpl never.

Ltac fields :=
  cbn [motor_running speed_level user_ready_flag servo_homing_required
       servo_current_ocr servo_target_ocr current_spi_status
       SPDR OCR1A OCR3A ICR3 TCCR3A TCCR3B LED_PORT FAN_PWM_PORT
       toggle_button_pressed speed_button_pressed
       set_motor_running set_speed_level set_user_ready_flag
       set_servo_homing_required set_servo_current_ocr set_servo_target_ocr
       set_current_spi_status set_SPDR set_OCR1A set_OCR3A set_ICR3
       set_TCCR3A set_TCCR3B set_LED_PORT set_FAN_PWM_PORT
       set_toggle_button_pressed set_speed_button_pressed] in *.

(** Normal form of a record built from a constructor by the setters. *)
Ltac records :=
  cbv beta iota delta
      [motor_running speed_level user_ready_flag servo_homing_required
       servo_current_ocr servo_target_ocr current_spi_status
       SPDR OCR1A OCR3A ICR3 TCCR3A TCCR3B LED_PORT FAN_PWM_PORT
       toggle_button_pressed speed_button_pressed
       set_motor_running set_speed_level set_user_ready_flag
       set_servo_homing_required set_servo_current_ocr set_servo_target_ocr
       set_current_spi_status set_SPDR set_OCR1A set_OCR3A set_ICR3
       set_TCCR3A set_TCCR3B set_LED_PORT set_FAN_PWM_PORT
       set_toggle_button_pressed set_speed_button_pressed].

(** Turn the boolean tests of the code into (in)equalities. *)
Ltac tests :=
  repeat match goal with
  | H : (_ && _) = true |- _ => apply andb_true_iff in H; destruct H
  | H : (_ || _) = false |- _ => apply orb_false_iff in H; destruct H
  | H : negb _ = true |- _ => apply negb_true_iff in H
  | H : negb _ = false |- _ => apply negb_false_iff in H
  | H : (_ =? _) = true |- _ => apply Z.eqb_eq in H
  | H : (_ =? _) = false |- _ => apply Z.eqb_neq in H
  | H : (_ <? _) = true |- _ => apply Z.ltb_lt in H
  | H : (_ <? _) = false |- _ => apply Z.ltb_ge in H
  | H : (_ <=? _) = true |- _ => apply Z.leb_le in H
  | H : (_ <=? _) = false |- _ => apply Z.leb_gt in H
  end.

Ltac break_if :=
  match goal with
  | |- context [if ?b then _ else _] => destruct b eqn:?
  end.

Ltac consts :=
  unfold STATUS_RUNNING, STATUS_READY, STATUS_HOMING_OFF,
    SERVO_CENTER, SERVO_CW_MAX, SERVO_CCW_MAX, ICR_8KHZ in *.

(** ** Bits *)

Lemma testbit_bit (k : Z) : 0 <= k -> Z.testbit (bit k) k = true.
Proof.
  intros Hk. unfold bit. rewrite Z.shiftl_spec by assumption.
  now rewrite Z.sub_diag.
Qed.

Lemma testbit_clear (x k : Z) :
  0 <= k -> Z.testbit (Z.land x (Z.lnot (bit k))) k = false.
Proof.
  intros Hk. rewrite Z.land_spec, Z.lnot_spec, testbit_bit by assumption.
  apply andb_false_r.
Qed.

Lemma testbit_set (x k : Z) :
  0 <= k -> Z.testbit (Z.lor x (bit k)) k = true.
Proof.
  intros Hk. rewrite Z.lor_spec, testbit_bit by assumption.
  apply orb_true_r.
Qed.

(** ** Ranges of the stored values *)

Lemma duty_values : DUTY_LOW = 399 /\ DUTY_MEDIUM = 799 /\ DUTY_HIGH = 1199.
Proof. repeat split; reflexivity. Qed.

Lemma angle_to_ocr_range (b : Z) :
  10 <= b <= 170 -> 140 <= angle_to_ocr b <= 610.
Proof.
  intros Hb. unfold angle_to_ocr. consts.
  rewrite Z.quot_div_nonneg by lia.
  assert (0 <= (b - 10) * (610 - 140) / 160 <= 470).
  { split.
    - apply Z.div_pos; lia.
    - apply Z.div_le_upper_bound; lia. }
  lia.
Qed.

Lemma uint16_small (x : Z) : 0 <= x < 65536 -> uint16 x = x.
Proof. intros. unfold uint16. now apply Z.mod_small. Qed.

Lemma uint8_small (x : Z) : 0 <= x < 256 -> uint8 x = x.
Proof. intros. unfold uint8. now apply Z.mod_small. Qed.

(** ** What the fan functions leave alone *)

Lemma update_leds_frame (s : State) :
  exists led, update_leds s = set_LED_PORT led s.
Proof.
  unfold update_leds. cbv zeta. fields.
  repeat break_if; destruct s; records; eexists; records; reflexivity.
Qed.

Lemma set_fan_speed_frame (level : Z) (s : State) :
  exists led,
    set_fan_speed level s
    = set_LED_PORT led (set_OCR3A (switch_duty level (OCR3A s)) s).
Proof.
  unfold set_fan_speed, switch_duty. cbv zeta.
  repeat break_if;
    match goal with
    | |- context [update_leds ?t] =>
        destruct (update_leds_frame t) as [led ->]
    end; exists led; destruct s; reflexivity.
Qed.

Lemma stop_fan_frame (s : State) :
  exists led,
    stop_fan s =
    set_LED_PORT led
      (set_speed_level 0
         (set_FAN_PWM_PORT (Z.land (FAN_PWM_PORT s) (Z.lnot (bit FAN_PWM_PIN)))
            (set_TCCR3A (Z.land (TCCR3A s) (Z.lnot (bit COM3A1)))
               (set_TCCR3B (Z.land (TCCR3B s) (Z.lnot (bit CS30)))
                  (set_motor_running 0 s))))).
Proof.
  unfold stop_fan. cbv zeta. fields.
  match goal with
  | |- context [update_leds ?t] => destruct (update_leds_frame t) as [led ->]
  end.
  exists led. reflexivity.
Qed.

Lemma start_fan_frame (s : State) :
  exists led,
    start_fan s =
    set_LED_PORT led
      (set_TCCR3B (Z.lor (TCCR3B s) (bit CS30))
         (set_OCR3A DUTY_HIGH
            (set_TCCR3A (Z.lor (TCCR3A s) (bit COM3A1))
               (set_speed_level 0 (set_motor_running 1 s))))).
Proof.
  unfold start_fan. cbv zeta. fields.
  match goal with
  | |- context [set_fan_speed ?l ?t] =>
      destruct (set_fan_speed_frame l t) as [led ->]
  end.
  exists led. fields. reflexivity.
Qed.

(** ** Preservation of the invariant *)

Ltac use_inv H :=
  let H1 := fresh "Hmotor" in let H2 := fresh "Hready" in
  let H3 := fresh "Hhoming" in let H4 := fresh "Hlevel" in
  let H5 := fresh "Hcurrent" in let H6 := fresh "Htarget" in
  let H7 := fresh "Hstatus" in let H8 := fresh "Hoff" in
  let H9 := fresh "Hperiod" in
  destruct H as [H1 H2 H3 H4 H5 H6 H7 H8 H9];
  unfold pwm_connected, pwm_clocked, fan_line in H8.

Ltac show_inv :=
  constructor; unfold pwm_connected, pwm_clocked, fan_line; fields; consts;
  try assumption; try lia;
  try (intros; repeat split; first [apply testbit_clear; discriminate
                                   | lia | tauto]).

Ltac frames :=
  repeat match goal with
  | |- context [stop_fan ?t] =>
      let led := fresh "led" in destruct (stop_fan_frame t) as [led ->]
  | |- context [start_fan ?t] =>
      let led := fresh "led" in destruct (start_fan_frame t) as [led ->]
  | |- context [set_fan_speed ?l ?t] =>
      let led := fresh "led" in destruct (set_fan_speed_frame l t) as [led ->]
  end.

Lemma Inv_initial : Inv initial_state.
Proof. constructor; vm_compute; intuition congruence. Qed.

Lemma Inv_stop_fan (s : State) : Inv s -> Inv (stop_fan s).
Proof. intros H. use_inv H. frames. show_inv. Qed.

Lemma Inv_start_fan (s : State) : Inv s -> Inv (start_fan s).
Proof. intros H. use_inv H. frames. show_inv. Qed.

Lemma Inv_SPI_STC_vect (b : Z) (s : State) : Inv s -> Inv (SPI_STC_vect b s).
Proof.
  intros H. unfold SPI_STC_vect. cbv zeta.
  repeat break_if; tests.
  - use_inv H. show_inv.
  - apply Inv_stop_fan in H. revert H. generalize (stop_fan s).
    intros t H. use_inv H. show_inv.
  - pose proof (angle_to_ocr_range b ltac:(lia)) as Hr.
    use_inv H. rewrite uint16_small by (consts; lia). show_inv.
  - use_inv H. show_inv.
  - apply Inv_start_fan in H. revert H. generalize (start_fan s).
    intros t H. use_inv H. show_inv.
  - use_inv H. show_inv.
  - use_inv H. show_inv.
Qed.

Lemma Inv_delay_ms (rx : list Z) (s : State) : Inv s -> Inv (delay_ms rx s).
Proof.
  revert s. induction rx as [|b rx IH]; intros s H; [exact H|].
  apply IH. now apply Inv_SPI_STC_vect.
Qed.

Lemma Inv_toggle_button_block (pind : Z) (rx : list Z) (s : State) :
  Inv s -> Inv (toggle_button_block pind rx s).
Proof.
  intros H. unfold toggle_button_block.
  destruct (negb _); [destruct (toggle_button_pressed s =? 0)|].
  - assert (H1 : Inv (delay_ms rx (set_toggle_button_pressed 1 s))).
    { apply Inv_delay_ms. use_inv H. show_inv. }
    cbv zeta. revert H1. generalize (delay_ms rx (set_toggle_button_pressed 1 s)).
    intros t H1. fields.
    destruct (user_ready_flag t =? 1);
      [destruct (motor_running t =? 0) eqn:E; tests|].
    + use_inv H1. show_inv.
    + assert (H2 : Inv (stop_fan (set_user_ready_flag 0 t))).
      { apply Inv_stop_fan. use_inv H1. show_inv. }
      revert H2. generalize (stop_fan (set_user_ready_flag 0 t)).
      intros u H2. use_inv H2. show_inv.
    + use_inv H1. show_inv.
  - exact H.
  - use_inv H. show_inv.
Qed.

Lemma Inv_speed_button_block (pind : Z) (rx : list Z) (s : State) :
  Inv s -> Inv (speed_button_block pind rx s).
Proof.
  intros H. unfold speed_button_block.
  destruct (negb _); [destruct (speed_button_pressed s =? 0)|].
  - assert (H1 : Inv (delay_ms rx (set_speed_button_pressed 1 s))).
    { apply Inv_delay_ms. use_inv H. show_inv. }
    cbv zeta. revert H1. generalize (delay_ms rx (set_speed_button_pressed 1 s)).
    intros t H1. fields. use_inv H1.
    rewrite uint8_small by lia.
    break_if; tests; frames; show_inv.
  - exact H.
  - use_inv H. show_inv.
Qed.

Lemma Inv_servo_track (s : State) : Inv s -> Inv (servo_track s).
Proof.
  intros H. unfold servo_track. cbv zeta. use_inv H. consts.
  repeat break_if; tests; fields;
    try rewrite uint16_small by lia; show_inv.
Qed.

Lemma Inv_servo_home (s : State) : Inv s -> Inv (servo_home s).
Proof.
  intros H. unfold servo_home. cbv zeta. use_inv H. consts.
  repeat break_if; tests; fields;
    try rewrite uint16_small by lia; show_inv.
Qed.

Lemma Inv_stopped_status (s : State) : Inv s -> Inv (stopped_status s).
Proof.
  intros H. unfold stopped_status. use_inv H.
  break_if; show_inv.
Qed.

Lemma Inv_fan_state_block (pind : Z) (rx : list Z) (s : State) :
  Inv s -> Inv (fan_state_block pind rx s).
Proof.
  intros H. unfold fan_state_block. cbv zeta.
  destruct (negb (motor_running s =? 0)).
  - apply (Inv_speed_button_block pind rx) in H.
    apply Inv_servo_track in H. revert H.
    generalize (servo_track (speed_button_block pind rx s)).
    intros t H. use_inv H. show_inv.
  - now apply Inv_stopped_status, Inv_servo_home.
Qed.

Lemma Inv_main_loop_body (i : LoopInput) (s : State) :
  Inv s -> Inv (main_loop_body i s).
Proof.
  intros H. unfold main_loop_body.
  now apply Inv_fan_state_block, Inv_toggle_button_block.
Qed.

Lemma Inv_run (es : list Event) (s : State) : Inv s -> Inv (run es s).
Proof.
  revert s. induction es as [|e es IH]; intros s H; [exact H|].
  apply IH. destruct e; [now apply Inv_main_loop_body|now apply Inv_SPI_STC_vect].
Qed.

Lemma reachable_Inv (s : State) : reachable s -> Inv s.
Proof. intros [es <-]. apply Inv_run, Inv_initial. Qed.

Lemma reachable_run (es : list Event) : reachable (run es initial_state).
Proof. exists es. reflexivity. Qed.

Lemma reachable_initial : reachable initial_state.
Proof. exact (reachable_run []). Qed.

Lemma reachable_step (s : State) (e : Event) :
  reachable s -> reachable (step s e).
Proof.
  intros [es <-]. exists (es ++ [e]). unfold run.
  now rewrite fold_left_app.
Qed.

(** ** The blocks of the loop body *)

Lemma servo_track_frame (s : State) :
  exists o c, servo_track s = set_OCR1A o (set_servo_current_ocr c s).
Proof.
  unfold servo_track. cbv zeta. fields.
  repeat break_if; destruct s; records; do 2 eexists; records; reflexivity.
Qed.

Lemma servo_home_frame (s : State) :
  exists o c h,
    servo_home s
    = set_OCR1A o (set_servo_current_ocr c (set_servo_homing_required h s)).
Proof.
  unfold servo_home. cbv zeta. fields.
  repeat break_if; destruct s; records; do 3 eexists; records; reflexivity.
Qed.

Lemma speed_button_block_frame (pind : Z) (s : State) :
  exists led o l p,
    speed_button_block pind [] s
    = set_LED_PORT led
        (set_OCR3A o (set_speed_level l (set_speed_button_pressed p s))).
Proof.
  unfold speed_button_block, delay_ms. cbn [fold_left]. cbv zeta. fields.
  repeat break_if; frames; destruct s; records; do 4 eexists; records; reflexivity.
Qed.

(** One count towards the target, in range. *)
Lemma servo_track_spec (s : State) :
  Inv s ->
  exists o,
    servo_track s
    = set_OCR1A o
        (set_servo_current_ocr
           (toward (servo_target_ocr s) (servo_current_ocr s)) s).
Proof.
  intros H. use_inv H. consts.
  unfold servo_track, toward. cbv zeta. fields.
  repeat break_if; tests; try rewrite uint16_small by lia;
    destruct s; records; eexists; records; reflexivity.
Qed.

Lemma servo_home_spec (s : State) :
  Inv s ->
  exists o,
    servo_home s
    = set_OCR1A o
        (set_servo_current_ocr
           (if homing_armed s then toward SERVO_CENTER (servo_current_ocr s)
            else servo_current_ocr s)
           (set_servo_homing_required
              (if homing_armed s && (servo_current_ocr s =? SERVO_CENTER)
               then 0 else servo_homing_required s) s)).
Proof.
  intros H. use_inv H.
  unfold servo_home, homing_armed, toward. cbv zeta. fields.
  destruct (negb (servo_homing_required s =? 0) || (user_ready_flag s =? 1));
    cbn [andb].
  - consts. destruct (servo_current_ocr s <? 375) eqn:E1;
      [|destruct (375 <? servo_current_ocr s) eqn:E2]; tests.
    + rewrite uint16_small by lia.
      destruct (Z.eqb_spec (servo_current_ocr s) 375); [lia|].
      destruct s; records; eexists; records; reflexivity.
    + rewrite uint16_small by lia.
      destruct (Z.eqb_spec (servo_current_ocr s) 375); [lia|].
      destruct s; records; eexists; records; reflexivity.
    + destruct (Z.eqb_spec (servo_current_ocr s) 375); [|lia].
      destruct s; records; eexists; records; reflexivity.
  - destruct s; records; eexists; records; reflexivity.
Qed.

Lemma stopped_status_frame (s : State) :
  stopped_status s
  = set_current_spi_status (current_spi_status (stopped_status s)) s.
Proof. unfold stopped_status. break_if; reflexivity. Qed.

(** A released toggle button only clears the latch. *)
Lemma toggle_button_block_released (pind : Z) (rx : list Z) (s : State) :
  Z.land pind (bit SWITCH_TOGGLE_PIN) = 0 ->
  toggle_button_block pind rx s = set_toggle_button_pressed 0 s.
Proof.
  intros H. unfold toggle_button_block. rewrite H. reflexivity.
Qed.

(** ** The status written by a pass *)

Lemma fan_state_block_status (pind : Z) (s : State) :
  current_spi_status (fan_state_block pind [] s)
  = status_for (fan_state_block pind [] s).
Proof.
  unfold fan_state_block. cbv zeta.
  destruct (negb (motor_running s =? 0)) eqn:E.
  - destruct (speed_button_block_frame pind s) as (led & o & l & p & ->).
    match goal with
    | |- context [servo_track ?t] =>
        destruct (servo_track_frame t) as (o1 & c1 & ->)
    end.
    unfold status_for. fields. now rewrite E.
  - destruct (servo_home_frame s) as (o & c & h & ->).
    unfold stopped_status, status_for. fields.
    break_if; fields; now rewrite E, Heqb.
Qed.

Lemma status_for_cases (s : State) :
  (motor_running s <> 0 -> status_for s = 222)
  /\ (motor_running s = 0 ->
      user_ready_flag s = 1 /\ servo_current_ocr s = 375 ->
      status_for s = 111)
  /\ (motor_running s = 0 ->
      ~ (user_ready_flag s = 1 /\ servo_current_ocr s = 375) ->
      status_for s = 0).
Proof.
  unfold status_for. consts.
  destruct (Z.eqb_spec (motor_running s) 0) as [Em|Em];
    destruct (Z.eqb_spec (user_ready_flag s) 1) as [Er|Er];
    destruct (Z.eqb_spec (servo_current_ocr s) 375) as [Ec|Ec];
    cbn [negb andb]; repeat split; intros; try reflexivity;
    try contradiction; tauto.
Qed.

Lemma main_loop_body_status (pind1 pind2 : Z) (s : State) :
  current_spi_status (main_loop_body (poll pind1 pind2) s)
  = status_for (main_loop_body (poll pind1 pind2) s).
Proof. unfold main_loop_body, poll. cbn [rx_speed]. apply fan_state_block_status. Qed.

Lemma SPI_STC_vect_status (b : Z) (s : State) :
  current_spi_status (SPI_STC_vect b s) = current_spi_status s
  /\ SPDR (SPI_STC_vect b s) = current_spi_status s.
Proof.
  unfold SPI_STC_vect. cbv zeta.
  repeat break_if; frames; fields; split; reflexivity.
Qed.


(** ** Passes without commands *)

Lemma toward_n_0 (g c : Z) : toward_n g c 0 = c.
Proof.
  unfold toward_n. destruct (Z.leb_spec c g); lia.
Qed.

Lemma toward_n_S (g c n : Z) :
  0 <= n -> toward_n g (toward g c) n = toward_n g c (n + 1).
Proof.
  intros Hn. unfold toward_n, toward.
  destruct (Z.ltb_spec c g); [|destruct (Z.ltb_spec g c)];
    repeat match goal with
           | |- context [?a <=? ?b] => destruct (Z.leb_spec a b)
           end; lia.
Qed.

Lemma toward_n_arrival (g c n : Z) :
  0 <= n ->
  (Z.abs (g - c) <= n -> toward_n g c n = g)
  /\ (n < Z.abs (g - c) -> toward_n g c n <> g).
Proof.
  intros Hn. unfold toward_n. destruct (Z.leb_spec c g); lia.
Qed.

Lemma run_loop_cons (i : LoopInput) (ins : list LoopInput) (s : State) :
  run_loop (i :: ins) s = run_loop ins (main_loop_body i s).
Proof. reflexivity. Qed.

Lemma Inv_run_loop (ins : list LoopInput) (s : State) :
  Inv s -> Inv (run_loop ins s).
Proof.
  revert s. induction ins as [|i ins IH]; intros s H; [exact H|].
  rewrite run_loop_cons. now apply IH, Inv_main_loop_body.
Qed.

(** A pass with the toggle button released, motor running. *)
Lemma running_pass (i : LoopInput) (s : State) :
  Inv s -> motor_running s <> 0 -> released i ->
  let s' := main_loop_body i s in
  motor_running s' = motor_running s
  /\ user_ready_flag s' = user_ready_flag s
  /\ servo_target_ocr s' = servo_target_ocr s
  /\ servo_current_ocr s' = toward (servo_target_ocr s) (servo_current_ocr s)
  /\ current_spi_status s' = STATUS_RUNNING.
Proof.
  intros H Hm (Hp & Hr1 & Hr2). unfold main_loop_body.
  rewrite toggle_button_block_released, Hr2 by assumption.
  unfold fan_state_block. cbv zeta. fields.
  apply Z.eqb_neq in Hm. rewrite Hm. cbn [negb]. cbv iota.
  assert (H0 : Inv (set_toggle_button_pressed 0 s)) by (use_inv H; show_inv).
  apply (Inv_speed_button_block (pind_speed i) []) in H0.
  destruct (servo_track_spec _ H0) as [o ->].
  destruct (speed_button_block_frame (pind_speed i)
              (set_toggle_button_pressed 0 s)) as (led & o' & l & p & ->).
  fields. repeat split; reflexivity.
Qed.

(** A pass with the toggle button released, motor stopped. *)
Lemma stopped_pass (i : LoopInput) (s : State) :
  Inv s -> motor_running s = 0 -> released i ->
  let s' := main_loop_body i s in
  motor_running s' = 0
  /\ user_ready_flag s' = user_ready_flag s
  /\ servo_target_ocr s' = servo_target_ocr s
  /\ servo_current_ocr s'
     = (if homing_armed s then toward SERVO_CENTER (servo_current_ocr s)
        else servo_current_ocr s)
  /\ servo_homing_required s'
     = (if homing_armed s && (servo_current_ocr s =? SERVO_CENTER)
        then 0 else servo_homing_required s)
  /\ current_spi_status s' = status_for s'.
Proof.
  intros H Hm (Hp & Hr1 & Hr2). unfold main_loop_body.
  rewrite toggle_button_block_released, Hr2 by assumption.
  split; [|split; [|split; [|split; [|split]]]];
    try apply fan_state_block_status.
  all: unfold fan_state_block; cbv zeta; fields; rewrite Hm;
    cbn [Z.eqb negb]; cbv iota.
  all: assert (H0 : Inv (set_toggle_button_pressed 0 s))
    by (use_inv H; show_inv).
  all: destruct (servo_home_spec _ H0) as [o ->].
  all: rewrite stopped_status_frame.
  all: unfold homing_armed; fields; try reflexivity; assumption.
Qed.

Lemma running_passes (ins : list LoopInput) (s : State) :
  Inv s -> motor_running s <> 0 -> Forall released ins ->
  let s' := run_loop ins s in
  motor_running s' = motor_running s
  /\ servo_target_ocr s' = servo_target_ocr s
  /\ servo_current_ocr s'
     = toward_n (servo_target_ocr s) (servo_current_ocr s)
         (Z.of_nat (length ins)).
Proof.
  revert s. induction ins as [|i ins IH]; intros s H Hm Hall.
  - cbn [run_loop fold_left length Z.of_nat]. now rewrite toward_n_0.
  - inversion Hall as [|i' ins' Hi Hins]; subst. rewrite run_loop_cons.
    destruct (running_pass i s H Hm Hi) as (A & _ & B & C & _).
    destruct (IH (main_loop_body i s)) as (A' & B' & C');
      [now apply Inv_main_loop_body | now rewrite A | assumption |].
    cbv zeta. rewrite A', B', C', A, B, C.
    repeat split. cbn [length]. rewrite Nat2Z.inj_succ.
    rewrite toward_n_S by lia. reflexivity.
Qed.

Lemma homing_passes (ins : list LoopInput) (s : State) :
  Inv s -> motor_running s = 0 ->
  homing_armed s = true \/ servo_current_ocr s = SERVO_CENTER ->
  Forall released ins ->
  let s' := run_loop ins s in
  motor_running s' = 0
  /\ user_ready_flag s' = user_ready_flag s
  /\ servo_target_ocr s' = servo_target_ocr s
  /\ servo_current_ocr s'
     = toward_n SERVO_CENTER (servo_current_ocr s) (Z.of_nat (length ins)).
Proof.
  revert s. induction ins as [|i ins IH]; intros s H Hm Ha Hall.
  - cbn [run_loop fold_left length Z.of_nat]. now rewrite toward_n_0.
  - inversion Hall as [|i' ins' Hi Hins]; subst. rewrite run_loop_cons.
    destruct (stopped_pass i s H Hm Hi) as (A & B & C & D & E & _).
    assert (D' : servo_current_ocr (main_loop_body i s)
                 = toward SERVO_CENTER (servo_current_ocr s)).
    { rewrite D. destruct (homing_armed s); [reflexivity|].
      destruct Ha as [Ha|Ha]; [discriminate|].
      rewrite Ha. reflexivity. }
    destruct (IH (main_loop_body i s)) as (A' & B' & C' & E');
      [now apply Inv_main_loop_body | assumption | | assumption |].
    { destruct (Z.eqb_spec (servo_current_ocr s) SERVO_CENTER) as [Ec|Ec].
      - right. rewrite D', Ec. reflexivity.
      - left. destruct Ha as [Ha|Ha]; [|contradiction].
        rewrite andb_false_r in E.
        unfold homing_armed in *. now rewrite B, E. }
    cbv zeta. rewrite A', B', C', E', B, C, D'.
    repeat split. cbn [length]. rewrite Nat2Z.inj_succ.
    rewrite toward_n_S by lia. reflexivity.
Qed.

Lemma status_passes (ins : list LoopInput) (s : State) :
  current_spi_status s = status_for s ->
  Forall released ins ->
  current_spi_status (run_loop ins s) = status_for (run_loop ins s).
Proof.
  revert s. induction ins as [|i ins IH]; intros s Hs Hall; [exact Hs|].
  inversion Hall as [|i' ins' (Hp & Hr1 & Hr2) Hins]; subst.
  rewrite run_loop_cons. apply IH; [|assumption].
  unfold main_loop_body. rewrite Hr2. apply fan_state_block_status.
Qed.

(** The pass that sees the toggle press which switches the system on. *)
Lemma switch_on_pass (pind1 pind2 : Z) (s : State) :
  Inv s -> motor_running s = 0 -> user_ready_flag s = 0 ->
  toggle_button_pressed s = 0 ->
  Z.land pind1 (bit SWITCH_TOGGLE_PIN) <> 0 ->
  let s' := main_loop_body (poll pind1 pind2) s in
  motor_running s' = 0 /\ user_ready_flag s' = 1
  /\ servo_target_ocr s' = SERVO_CENTER
  /\ servo_current_ocr s' = toward SERVO_CENTER (servo_current_ocr s).
Proof.
  intros H Hm Hr Hl Hp. unfold main_loop_body, poll.
  cbn [pind_toggle rx_toggle pind_speed rx_speed].
  assert (E : toggle_button_block pind1 [] s
              = set_servo_homing_required 1
                  (set_servo_target_ocr SERVO_CENTER
                     (set_user_ready_flag 1
                        (set_toggle_button_pressed 1 s)))).
  { unfold toggle_button_block, delay_ms. cbn [fold_left]. cbv zeta.
    apply Z.eqb_neq in Hp. rewrite Hp, Hl. cbn [negb Z.eqb]. cbv iota.
    fields. rewrite Hr. reflexivity. }
  rewrite E. clear E.
  unfold fan_state_block. cbv zeta. fields. rewrite Hm.
  cbn [Z.eqb negb]. cbv iota.
  match goal with
  | |- context [servo_home ?t] =>
      assert (H0 : Inv t) by (use_inv H; show_inv);
      destruct (servo_home_spec t H0) as [o ->]
  end.
  rewrite stopped_status_frame. unfold homing_armed. fields.
  repeat split; try reflexivity; assumption.
Qed.

Lemma released_repeat_poll (pind2 : Z) (k : nat) :
  Forall released (repeat (poll 0 pind2) k).
Proof.
  apply Forall_forall. intros x Hx. apply repeat_spec in Hx. subst x.
  repeat split.
Qed.

(** The stopped branch of a pass while homing is armed. *)
Lemma homing_block (pind : Z) (rx : list Z) (s : State) :
  Inv s -> motor_running s = 0 -> homing_armed s = true ->
  let s' := fan_state_block pind rx s in
  motor_running s' = 0
  /\ servo_current_ocr s' = toward SERVO_CENTER (servo_current_ocr s)
  /\ servo_target_ocr s' = servo_target_ocr s
  /\ servo_homing_required s'
     = (if servo_current_ocr s =? SERVO_CENTER then 0
        else servo_homing_required s)
  /\ user_ready_flag s' = user_ready_flag s.
Proof.
  intros H Hm Ha. unfold fan_state_block. cbv zeta. rewrite Hm.
  cbn [Z.eqb negb]. cbv iota.
  destruct (servo_home_spec s H) as [o ->].
  rewrite stopped_status_frame. rewrite Ha. cbn [andb]. fields.
  repeat split; try reflexivity; assumption.
Qed.

(** ** The speed button *)

Lemma next_level (l : Z) :
  0 <= l <= 2 ->
  (if 2 <? l + 1 then 0 else l + 1) = (l + 1) mod 3.
Proof.
  intros Hl. assert (E : l = 0 \/ l = 1 \/ l = 2) by lia.
  destruct E as [-> | [-> | ->]]; reflexivity.
Qed.

Lemma speed_press_pass (pind1 pind2 : Z) (s : State) :
  Inv s -> motor_running s <> 0 ->
  Z.land pind1 (bit SWITCH_TOGGLE_PIN) = 0 ->
  Z.land pind2 (bit SWITCH_SPEED_PIN) <> 0 ->
  speed_button_pressed s = 0 ->
  let s' := main_loop_body (poll pind1 pind2) s in
  speed_level s' = (speed_level s + 1) mod 3
  /\ OCR3A s' = duty_table (speed_level s')
  /\ motor_running s' = motor_running s
  /\ speed_button_pressed s' = 1.
Proof.
  intros H Hm Hp1 Hp2 Hl. unfold main_loop_body, poll.
  cbn [pind_toggle rx_toggle pind_speed rx_speed].
  rewrite toggle_button_block_released by assumption.
  unfold fan_state_block. cbv zeta. fields.
  apply Z.eqb_neq in Hm. rewrite Hm. cbn [negb]. cbv iota.
  assert (E : exists led,
             speed_button_block pind2 [] (set_toggle_button_pressed 0 s)
             = set_LED_PORT led
                 (set_OCR3A (duty_table ((speed_level s + 1) mod 3))
                    (set_speed_level ((speed_level s + 1) mod 3)
                       (set_speed_button_pressed 1
                          (set_toggle_button_pressed 0 s))))).
  { unfold speed_button_block, delay_ms. cbn [fold_left]. cbv zeta. fields.
    apply Z.eqb_neq in Hp2. rewrite Hp2, Hl. cbn [negb Z.eqb]. cbv iota.
    pose proof (inv_level s H) as Hlv.
    rewrite uint8_small by lia.
    replace (if 2 <? speed_level s + 1
             then set_speed_level 0
                    (set_speed_level (speed_level s + 1)
                       (set_speed_button_pressed 1
                          (set_toggle_button_pressed 0 s)))
             else set_speed_level (speed_level s + 1)
                    (set_speed_button_pressed 1
                       (set_toggle_button_pressed 0 s)))
      with (set_speed_level ((speed_level s + 1) mod 3)
              (set_speed_button_pressed 1 (set_toggle_button_pressed 0 s)))
      by (rewrite <- next_level by assumption;
          destruct (2 <? speed_level s + 1); reflexivity).
    fields. frames. exists led. f_equal. f_equal.
    unfold switch_duty, duty_table.
    assert (E : (speed_level s + 1) mod 3 = 0 \/ (speed_level s + 1) mod 3 = 1
                \/ (speed_level s + 1) mod 3 = 2).
    { pose proof (Z.mod_pos_bound (speed_level s + 1) 3 eq_refl). lia. }
    destruct E as [-> | [-> | ->]]; reflexivity. }
  destruct E as [led E]. rewrite E.
  match goal with
  | |- context [servo_track ?t] =>
      destruct (servo_track_frame t) as (o & c & ->)
  end.
  fields. repeat split; reflexivity.
Qed.



(** ** The servo position is written by the main loop only *)

Lemma SPI_STC_vect_current (b : Z) (s : State) :
  servo_current_ocr (SPI_STC_vect b s) = servo_current_ocr s.
Proof.
  unfold SPI_STC_vect. cbv zeta.
  repeat break_if; frames; fields; reflexivity.
Qed.

Lemma delay_ms_current (rx : list Z) (s : State) :
  servo_current_ocr (delay_ms rx s) = servo_current_ocr s.
Proof.
  revert s. induction rx as [|b rx IH]; intros s; [reflexivity|].
  change (delay_ms (b :: rx) s) with (delay_ms rx (SPI_STC_vect b s)).
  now rewrite IH, SPI_STC_vect_current.
Qed.

Lemma toggle_button_block_current (pind : Z) (rx : list Z) (s : State) :
  servo_current_ocr (toggle_button_block pind rx s) = servo_current_ocr s.
Proof.
  unfold toggle_button_block. cbv zeta.
  repeat break_if; frames; fields; rewrite ?delay_ms_current; reflexivity.
Qed.

Lemma speed_button_block_current (pind : Z) (rx : list Z) (s : State) :
  servo_current_ocr (speed_button_block pind rx s) = servo_current_ocr s.
Proof.
  unfold speed_button_block. cbv zeta.
  repeat break_if; frames; fields; rewrite ?delay_ms_current; reflexivity.
Qed.

Lemma toward_near (g c : Z) : Z.abs (toward g c - c) <= 1.
Proof.
  unfold toward.
  destruct (Z.ltb_spec c g); [|destruct (Z.ltb_spec g c)]; lia.
Qed.

Lemma main_loop_body_current (i : LoopInput) (s : State) :
  Inv s ->
  Z.abs (servo_current_ocr (main_loop_body i s) - servo_current_ocr s) <= 1.
Proof.
  intros H. unfold main_loop_body.
  rewrite <- (toggle_button_block_current (pind_toggle i) (rx_toggle i) s).
  apply (Inv_toggle_button_block (pind_toggle i) (rx_toggle i)) in H.
  revert H. generalize (toggle_button_block (pind_toggle i) (rx_toggle i) s).
  intros t H. unfold fan_state_block. cbv zeta.
  destruct (negb (motor_running t =? 0)).
  - rewrite <- (speed_button_block_current (pind_speed i) (rx_speed i) t).
    apply (Inv_speed_button_block (pind_speed i) (rx_speed i)) in H.
    destruct (servo_track_spec _ H) as [o ->]. fields.
    apply toward_near.
  - destruct (servo_home_spec t H) as [o ->].
    rewrite stopped_status_frame. fields.
    destruct (homing_armed t); [apply toward_near|].
    rewrite Z.sub_diag. cbn. lia.
Qed.

(** ** The speed level while the motor is stopped *)

Lemma level_cleared_SPI_STC_vect (b : Z) (s : State) :
  level_cleared s -> level_cleared (SPI_STC_vect b s).
Proof.
  unfold level_cleared, SPI_STC_vect. cbv zeta. intros H.
  repeat break_if; tests; frames; fields; intros; try reflexivity;
    try discriminate; auto.
Qed.

Lemma level_cleared_toggle_button_block (pind : Z) (s : State) :
  level_cleared s -> level_cleared (toggle_button_block pind [] s).
Proof.
  unfold level_cleared, toggle_button_block, delay_ms. cbn [fold_left].
  cbv zeta. intros H.
  repeat break_if; tests; frames; fields; intros; try reflexivity; auto.
Qed.

Lemma level_cleared_fan_state_block (pind : Z) (s : State) :
  level_cleared s -> level_cleared (fan_state_block pind [] s).
Proof.
  unfold level_cleared, fan_state_block. cbv zeta. intros H.
  destruct (Z.eqb_spec (motor_running s) 0) as [E|E]; cbn [negb].
  - destruct (servo_home_frame s) as (o & c & h & ->).
    rewrite stopped_status_frame. fields. exact H.
  - destruct (speed_button_block_frame pind s) as (led & o & l & p & ->).
    match goal with
    | |- context [servo_track ?t] =>
        destruct (servo_track_frame t) as (o1 & c1 & ->)
    end.
    fields. intros E'. contradiction.
Qed.

(** Over runs in which no transfer completes inside a pass, a stopped motor
    has speed level 0. *)
Lemma level_cleared_whole (s : State) :
  reachable_whole s -> level_cleared s.
Proof.
  intros (es & Hall & <-).
  assert (H0 : level_cleared initial_state) by (intros _; reflexivity).
  revert H0. generalize initial_state. induction Hall as [|e es He Hes IH];
    intros s H; [exact H|].
  apply IH. destruct e as [[p1 r1 p2 r2]|b].
  - destruct He as [E1 E2]. cbn [rx_toggle rx_speed] in E1, E2. subst r1 r2.
    cbn [step]. unfold main_loop_body.
    cbn [pind_toggle rx_toggle pind_speed rx_speed].
    now apply level_cleared_fan_state_block, level_cleared_toggle_button_block.
  - now apply level_cleared_SPI_STC_vect.
Qed.

Lemma start_fan_level (s : State) :
  motor_running (start_fan s) = 1 /\ speed_level (start_fan s) = 0.
Proof. frames. fields. split; reflexivity. Qed.

Lemma stop_fan_level (s : State) :
  motor_running (stop_fan s) = 0 /\ speed_level (stop_fan s) = 0.
Proof. frames. fields. split; reflexivity. Qed.

(** ** The split read of the target *)

Lemma read_target_split_nil (s : State) :
  read_target_split [] s = (servo_target_ocr s, s).
Proof.
  unfold read_target_split. cbn [fold_left]. f_equal.
  pose proof (Z.div_mod (servo_target_ocr s) 256). lia.
Qed.

Lemma servo_track_split_nil (s : State) :
  servo_track_split [] s = servo_track s.
Proof.
  unfold servo_track_split. rewrite read_target_split_nil. reflexivity.
Qed.

Lemma main_loop_body_split_nil (i : LoopInput) (s : State) :
  main_loop_body_split i [] s = main_loop_body i s.
Proof.
  unfold main_loop_body_split, main_loop_body.
  unfold fan_state_block_split, fan_state_block. cbv zeta.
  now rewrite servo_track_split_nil.
Qed.

Lemma servo_track_split_current (rx : list Z) (s : State) :
  Inv s ->
  Z.abs (servo_current_ocr (servo_track_split rx s) - servo_current_ocr s)
  <= 1.
Proof.
  intros H. unfold servo_track_split, read_target_split. cbv zeta.
  change (fold_left (fun st b => SPI_STC_vect b st) rx s)
    with (delay_ms rx s).
  pose proof (delay_ms_current rx s) as Hc.
  pose proof (Inv_delay_ms rx s H) as Hi.
  revert Hc Hi. generalize (delay_ms rx s). intros t Hc Hi.
  destruct Hi. consts.
  repeat break_if; fields; try rewrite uint16_small by lia; lia.
Qed.

Lemma main_loop_body_split_current
    (i : LoopInput) (rx : list Z) (s : State) :
  Inv s ->
  Z.abs (servo_current_ocr (main_loop_body_split i rx s)
         - servo_current_ocr s) <= 1.
Proof.
  intros H. unfold main_loop_body_split.
  rewrite <- (toggle_button_block_current (pind_toggle i) (rx_toggle i) s).
  apply (Inv_toggle_button_block (pind_toggle i) (rx_toggle i)) in H.
  revert H. generalize (toggle_button_block (pind_toggle i) (rx_toggle i) s).
  intros t H.
  unfold fan_state_block_split. cbv zeta.
  destruct (negb (motor_running t =? 0)).
  - rewrite <- (speed_button_block_current (pind_speed i) (rx_speed i) t).
    apply (Inv_speed_button_block (pind_speed i) (rx_speed i)) in H.
    revert H. generalize (speed_button_block (pind_speed i) (rx_speed i) t).
    intros u H. fields. now apply servo_track_split_current.
  - destruct (servo_home_spec t H) as [o ->].
    rewrite stopped_status_frame. fields.
    destruct (homing_armed t); [apply toward_near|].
    rewrite Z.sub_diag. cbn. lia.
Qed.

(** * The claims *)

(** C1 (status precedence).  The property fails after a pass that is
    preempted in its speed-button wait: with the motor running, a pass
    tests [motor_running] at line 187, sees the speed button pressed and
    spins in the 50 ms debounce wait of line 194; byte 200 is handled
    during the wait and stops the motor; the pass goes on in the running
    branch and stores status 222 at line 212.  After this pass the motor is
    stopped and the user is not ready, so the flags call for status 0, and
    the status is 222.  What holds: from every state, a pass with no
    transfer handled in the speed-button wait stores 222 if
    [motor_running] is set after the pass, else 111 if [user_ready_flag]
    is 1 and the servo stands at 375, else 0; and over the runs of the
    model the status is one of 0, 111 and 222 and [user_ready_flag] is 0 or
    1. *)
Theorem C1_status_precedence :
  (reachable st_preempted
   /\ motor_running st_preempted = 0
   /\ user_ready_flag st_preempted = 0
   /\ status_for st_preempted = 0
   /\ current_spi_status st_preempted = 222)
  /\ (forall (s : State) (i : LoopInput),
        rx_speed i = [] ->
        let s' := main_loop_body i s in
        (motor_running s' <> 0 -> current_spi_status s' = 222)
        /\ (motor_running s' = 0 ->
            user_ready_flag s' = 1 /\ servo_current_ocr s' = 375 ->
            current_spi_status s' = 111)
        /\ (motor_running s' = 0 ->
            ~ (user_ready_flag s' = 1 /\ servo_current_ocr s' = 375) ->
            current_spi_status s' = 0))
  /\ (forall s : State,
        reachable s ->
        (current_spi_status s = 0 \/ current_spi_status s = 111
         \/ current_spi_status s = 222)
        /\ (user_ready_flag s = 0 \/ user_ready_flag s = 1)).
Proof.
  split; [|split].
  - split; [exact (reachable_run _)|].
    vm_compute. repeat split.
  - intros s i Hi s'. unfold s', main_loop_body. rewrite Hi.
    rewrite fan_state_block_status.
    apply status_for_cases.
  - intros s Hs. apply reachable_Inv in Hs. destruct Hs. consts.
    split; assumption.
Qed.

Lemma C1_status_precedence_witness :
  rx_speed (mkInput 2 [255] 0 []) = []
  /\ current_spi_status (main_loop_body (mkInput 2 [255] 0 []) initial_state)
     = 111.
Proof.
  split; [reflexivity|].
  apply (proj1 (proj2 C1_status_precedence)
           initial_state (mkInput 2 [255] 0 []) eq_refl).
  - vm_compute. reflexivity.
  - split; vm_compute; reflexivity.
Defined.

(** C2, as stated, fails.  In the ready state reached by one toggle press,
    START sets [motor_running], so the state calls for status 222, yet the
    handler queues 111; and after one more pass RESET stops the motor, so
    the state calls for 0, yet the handler queues 222. *)
Lemma C2_reply_counterexample :
  (motor_running st_started = 1 /\ status_for st_started = 222
   /\ SPDR st_started = 111 /\ SPDR st_started <> status_for st_started)
  /\ (motor_running (SPI_STC_vect 200 st_running) = 0
      /\ status_for (SPI_STC_vect 200 st_running) = 0
      /\ SPDR (SPI_STC_vect 200 st_running) = 222
      /\ SPDR (SPI_STC_vect 200 st_running)
         <> status_for (SPI_STC_vect 200 st_running)).
Proof. vm_compute. repeat split; discriminate. Qed.

(** C2, amended.  The handler queues the status that the main loop stored
    last and does not recompute it: whatever the byte, the queued reply is
    the status from before the command, and the stored status is unchanged.
    The state that results from the command shows in the status after the
    next pass of the main loop, and so in the reply queued by the transfer
    that follows that pass. *)
Theorem C2_reply_is_stored_status (b : Z) (s : State) :
  SPDR (SPI_STC_vect b s) = current_spi_status s
  /\ current_spi_status (SPI_STC_vect b s) = current_spi_status s
  /\ forall pind1 pind2 b',
       let t := main_loop_body (poll pind1 pind2) (SPI_STC_vect b s) in
       SPDR (SPI_STC_vect b' t) = status_for t.
Proof.
  destruct (SPI_STC_vect_status b s) as [H1 H2].
  repeat split; try assumption.
  intros pind1 pind2 b' t.
  destruct (SPI_STC_vect_status b' t) as [_ ->].
  apply main_loop_body_status.
Qed.

(** C3 (angle gating).  For an angle byte [b] in 10..170 and every state:
    when [user_ready_flag] and [motor_running] are both 1, the handler
    stores [(b - 10) * (610 - 140) / 160 + 140] (truncating division) into
    the target, 375 for [b = 90], and queues the reply; in every other
    state it only queues the reply, and nothing else changes.  Over the
    runs of the model the two flags are 0 or 1, so that being set and
    being 1 are the same. *)
Theorem C3_angle_gating (b : Z) (s : State) :
  10 <= b <= 170 ->
  (user_ready_flag s = 1 /\ motor_running s = 1 ->
   SPI_STC_vect b s
   = set_SPDR (current_spi_status s)
       (set_servo_target_ocr (Z.quot ((b - 10) * (610 - 140)) 160 + 140) s))
  /\ (~ (user_ready_flag s = 1 /\ motor_running s = 1) ->
      SPI_STC_vect b s = set_SPDR (current_spi_status s) s)
  /\ (b = 90 -> user_ready_flag s = 1 /\ motor_running s = 1 ->
      servo_target_ocr (SPI_STC_vect b s) = 375)
  /\ (reachable s ->
      (user_ready_flag s = 0 \/ user_ready_flag s = 1)
      /\ (motor_running s = 0 \/ motor_running s = 1)).
Proof.
  intros Hb.
  pose proof (angle_to_ocr_range b Hb) as Hr.
  assert (E : SPI_STC_vect b s
              = if (user_ready_flag s =? 1) && (motor_running s =? 1)
                then set_SPDR (current_spi_status s)
                       (set_servo_target_ocr (angle_to_ocr b) s)
                else set_SPDR (current_spi_status s) s).
  { unfold SPI_STC_vect. cbv zeta.
    destruct (Z.eqb_spec b 200); [lia|].
    destruct (Z.leb_spec 10 b); [|lia].
    destruct (Z.leb_spec b 170); [|lia].
    cbn [andb]. rewrite uint16_small by lia.
    destruct ((user_ready_flag s =? 1) && (motor_running s =? 1));
      reflexivity. }
  change (Z.quot ((b - 10) * (610 - 140)) 160 + 140) with (angle_to_ocr b).
  split; [|split; [|split]].
  - intros [Er Em]. rewrite E, Er, Em. reflexivity.
  - intros Hn. rewrite E.
    destruct (Z.eqb_spec (user_ready_flag s) 1) as [Er|Er];
      destruct (Z.eqb_spec (motor_running s) 1) as [Em|Em];
      cbn [andb]; try reflexivity.
    exfalso. apply Hn. split; assumption.
  - intros -> [Er Em]. rewrite E, Er, Em. reflexivity.
  - intros Hs. apply reachable_Inv in Hs. destruct Hs. split; assumption.
Qed.

(** In the running state byte 170 moves the target from 375 to 610; in the
    ready state, with the motor stopped, it leaves the target at 375. *)
Lemma C3_angle_gating_witness :
  (servo_target_ocr st_running = 375
   /\ servo_target_ocr (SPI_STC_vect 170 st_running) = 610)
  /\ (motor_running st_ready = 0
      /\ servo_target_ocr (SPI_STC_vect 170 st_ready) = 375).
Proof.
  assert (Hb : 10 <= 170 <= 170) by lia.
  split; (split; [vm_compute; reflexivity|]).
  - rewrite (proj1 (C3_angle_gating 170 st_running Hb)).
    + vm_compute. reflexivity.
    + split; vm_compute; reflexivity.
  - rewrite (proj1 (proj2 (C3_angle_gating 170 st_ready Hb))).
    + vm_compute. reflexivity.
    + intros [_ Hm]. vm_compute in Hm. discriminate Hm.
Defined.



(** C5 (start).  Byte 255 starts the fan exactly when the stored status is
    READY (111): then [motor_running] becomes 1, [speed_level] becomes 0,
    the duty register receives the level-0 value and timer 3 is connected
    and clocked, the other globals keeping their values; with any other
    status the handler only queues the reply. *)
Theorem C5_start (s : State) :
  (current_spi_status s = 111 ->
   let s' := SPI_STC_vect 255 s in
   motor_running s' = 1 /\ speed_level s' = 0
   /\ OCR3A s' = duty_table 0 /\ OCR3A s' = 1199
   /\ pwm_connected s' = true /\ pwm_clocked s' = true
   /\ user_ready_flag s' = user_ready_flag s
   /\ servo_homing_required s' = servo_homing_required s
   /\ servo_current_ocr s' = servo_current_ocr s
   /\ servo_target_ocr s' = servo_target_ocr s)
  /\ (current_spi_status s <> 111 ->
      SPI_STC_vect 255 s = set_SPDR (current_spi_status s) s).
Proof.
  unfold SPI_STC_vect. cbv zeta. change (255 =? 200) with false.
  change ((10 <=? 255) && (255 <=? 170)) with false.
  change (255 =? 255) with true. cbv iota. consts.
  split.
  - intros E. rewrite E. change (111 =? 111) with true. cbv iota.
    frames. unfold pwm_connected, pwm_clocked. fields.
    repeat split; try reflexivity; apply testbit_set; discriminate.
  - intros E. apply Z.eqb_neq in E. rewrite E. reflexivity.
Qed.

Lemma C5_start_witness :
  motor_running (SPI_STC_vect 255 st_ready) = 1
  /\ SPI_STC_vect 255 initial_state = set_SPDR 0 initial_state.
Proof.
  split.
  - refine (proj1 (proj1 (C5_start st_ready) _)). vm_compute. reflexivity.
  - rewrite (proj2 (C5_start initial_state));
      vm_compute; [reflexivity|discriminate].
Defined.

(** C6, as stated, fails.  A toggle press, START, angle byte 170 and RESET
    leave the motor stopped with the servo at 375 and the target at 610.
    No command follows and the target stays 610, yet after
    |610 - 375| = 235 passes the servo still stands at 375. *)
Lemma C6_convergence_counterexample :
  (motor_running st_reset_at_centre = 0
   /\ servo_current_ocr st_reset_at_centre = 375
   /\ servo_target_ocr st_reset_at_centre = 610)
  /\ Forall released (repeat (poll 0 0) 235%nat)
  /\ Z.of_nat (length (repeat (poll 0 0) 235%nat))
     = Z.abs (servo_target_ocr st_reset_at_centre
              - servo_current_ocr st_reset_at_centre)
  /\ servo_target_ocr (run_loop (repeat (poll 0 0) 235%nat) st_reset_at_centre)
     = 610
  /\ servo_current_ocr (run_loop (repeat (poll 0 0) 235%nat) st_reset_at_centre)
     = 375
  /\ servo_current_ocr (run_loop (repeat (poll 0 0) 235%nat) st_reset_at_centre)
     <> servo_target_ocr
          (run_loop (repeat (poll 0 0) 235%nat) st_reset_at_centre).
Proof.
  split; [vm_compute; repeat split|].
  split; [apply released_repeat_poll|].
  vm_compute. repeat split; discriminate.
Qed.

(** C6, amended.  Over passes with the toggle button released and no
    command, the target keeps its value and:
    - while the motor runs, the servo position moves one count per pass
      towards the target, reaches it after exactly |target - current|
      passes and stays there;
    - while the motor is stopped and homing is requested or the user is
      ready, the position moves one count per pass towards 375 instead,
      whatever the target is, reaches 375 after exactly |375 - current|
      passes and stays there;
    - after a toggle press with the system off, the motor stopped and the
      servo at 140, the target is 375 and the status is 0 after each of the
      first 234 passes (the pass that sees the press included) and 111
      from the 235th pass on. *)
Theorem C6_servo_convergence (s : State) (ins : list LoopInput) :
  reachable s ->
  Forall released ins ->
  let n := Z.of_nat (length ins) in
  let c := servo_current_ocr s in
  (motor_running s <> 0 ->
   let s' := run_loop ins s in
   let g := servo_target_ocr s in
   servo_target_ocr s' = g
   /\ servo_current_ocr s' = toward_n g c n
   /\ (Z.abs (g - c) <= n -> servo_current_ocr s' = g)
   /\ (n < Z.abs (g - c) -> servo_current_ocr s' <> g))
  /\ (motor_running s = 0 ->
      servo_homing_required s <> 0 \/ user_ready_flag s <> 0 ->
      let s' := run_loop ins s in
      servo_target_ocr s' = servo_target_ocr s
      /\ servo_current_ocr s' = toward_n 375 c n
      /\ (Z.abs (375 - c) <= n -> servo_current_ocr s' = 375)
      /\ (n < Z.abs (375 - c) -> servo_current_ocr s' <> 375))
  /\ (motor_running s = 0 -> user_ready_flag s = 0 ->
      toggle_button_pressed s = 0 -> c = 140 ->
      forall pind1 pind2,
        Z.land pind1 (bit SWITCH_TOGGLE_PIN) <> 0 ->
        let s1 := main_loop_body (poll pind1 pind2) s in
        servo_target_ocr s1 = 375
        /\ current_spi_status (run_loop ins s1)
           = if 235 <=? 1 + n then 111 else 0).
Proof.
  intros Hs Hall n c. apply reachable_Inv in Hs.
  assert (Hn : 0 <= n) by (unfold n; lia).
  split; [|split].
  - intros Hm s' g.
    destruct (running_passes ins s Hs Hm Hall) as (_ & A & B).
    fold s' n c g in A, B.
    destruct (toward_n_arrival g c n Hn) as [P Q].
    rewrite B. repeat split; assumption.
  - intros Hm Ha s'.
    assert (Ha' : homing_armed s = true).
    { unfold homing_armed.
      destruct (Z.eqb_spec (servo_homing_required s) 0) as [E|E];
        [|reflexivity].
      destruct (inv_ready s Hs) as [E'|E']; [lia|].
      rewrite E'. reflexivity. }
    destruct (homing_passes ins s Hs Hm (or_introl Ha') Hall)
      as (_ & _ & A & B).
    fold s' n c in A, B. consts.
    destruct (toward_n_arrival 375 c n Hn) as [P Q].
    rewrite B. repeat split; assumption.
  - intros Hm Hr Hl Hc pind1 pind2 Hp s1.
    destruct (switch_on_pass pind1 pind2 s Hs Hm Hr Hl Hp)
      as (A & B & C & D).
    fold s1 in A, B, C, D. fold c in D. rewrite Hc in D.
    split; [exact C|].
    assert (H1 : Inv s1) by now apply Inv_main_loop_body.
    assert (Ha : homing_armed s1 = true).
    { unfold homing_armed. rewrite B. apply orb_true_r. }
    destruct (homing_passes ins s1 H1 A (or_introl Ha) Hall)
      as (A' & B' & _ & D').
    rewrite status_passes;
      [| apply main_loop_body_status | assumption].
    unfold status_for. rewrite A', B', D', B, D. fold n.
    cbn [Z.eqb Pos.eqb negb andb]. cbv iota.
    unfold toward_n, toward. consts.
    change (140 <? 375) with true. cbv iota.
    change (140 + 1 <=? 375) with true. cbv iota.
    destruct (Z.leb_spec 235 (1 + n)), (Z.eqb_spec (Z.min (140 + 1 + n) 375) 375);
      try reflexivity; lia.
Qed.

Lemma C6_servo_convergence_witness :
  servo_current_ocr st_off_at_140 = 140
  /\ current_spi_status
       (run_loop (repeat (poll 0 0) 233%nat)
          (main_loop_body (poll 2 0) st_off_at_140)) = 0
  /\ current_spi_status
       (run_loop (repeat (poll 0 0) 234%nat)
          (main_loop_body (poll 2 0) st_off_at_140)) = 111.
Proof.
  assert (Hs : reachable st_off_at_140) by exact (reachable_run _).
  assert (Hm : motor_running st_off_at_140 = 0) by (vm_compute; reflexivity).
  assert (Hr : user_ready_flag st_off_at_140 = 0) by (vm_compute; reflexivity).
  assert (Hl : toggle_button_pressed st_off_at_140 = 0)
    by (vm_compute; reflexivity).
  assert (Hc : servo_current_ocr st_off_at_140 = 140)
    by (vm_compute; reflexivity).
  assert (Hp : Z.land 2 (bit SWITCH_TOGGLE_PIN) <> 0)
    by (vm_compute; discriminate).
  split; [exact Hc|]. split.
  - exact (proj2 (proj2 (proj2
             (C6_servo_convergence st_off_at_140 (repeat (poll 0 0) 233%nat)
                Hs (released_repeat_poll 0 233)))
             Hm Hr Hl Hc 2 0 Hp)).
  - exact (proj2 (proj2 (proj2
             (C6_servo_convergence st_off_at_140 (repeat (poll 0 0) 234%nat)
                Hs (released_repeat_poll 0 234)))
             Hm Hr Hl Hc 2 0 Hp)).
Defined.

(** C7, as stated, fails.  After a toggle press, START, angle byte 170, two
    passes and RESET the motor is stopped and homing is requested, with the
    servo at 377 and the target at 610.  The next pass moves the servo to
    376, towards the centre, and leaves the target at 610. *)
Lemma C7_target_counterexample :
  (motor_running st_reset_off_centre = 0
   /\ servo_homing_required st_reset_off_centre = 1
   /\ servo_current_ocr st_reset_off_centre = 377
   /\ servo_target_ocr st_reset_off_centre = 610)
  /\ servo_current_ocr (main_loop_body (poll 0 0) st_reset_off_centre) = 376
  /\ servo_target_ocr (main_loop_body (poll 0 0) st_reset_off_centre) = 610
  /\ servo_target_ocr (main_loop_body (poll 0 0) st_reset_off_centre)
     <> SERVO_CENTER.
Proof. vm_compute. repeat split; discriminate. Qed.

(** C7, amended.  On every pass that starts with the motor stopped and
    homing requested or the user ready, and during which no command
    arrives, the servo position moves one count towards 375 whatever the
    target holds, and [servo_homing_required] is cleared when the position
    already was 375.  The pass does not write the target: without a toggle
    press the target keeps its value, and [servo_homing_required] keeps its
    value until the position is 375; only the toggle press that switches
    the system on sets the target to 375. *)
Theorem C7_homing (s : State) (pind1 pind2 : Z) :
  reachable s ->
  motor_running s = 0 ->
  servo_homing_required s <> 0 \/ user_ready_flag s <> 0 ->
  let s' := main_loop_body (poll pind1 pind2) s in
  let c := servo_current_ocr s in
  motor_running s' = 0
  /\ servo_current_ocr s' = toward 375 c
  /\ (c = 375 -> servo_homing_required s' = 0)
  /\ (Z.land pind1 (bit SWITCH_TOGGLE_PIN) = 0
      \/ toggle_button_pressed s <> 0 ->
      servo_target_ocr s' = servo_target_ocr s
      /\ (c <> 375 -> servo_homing_required s' = servo_homing_required s))
  /\ (Z.land pind1 (bit SWITCH_TOGGLE_PIN) <> 0 ->
      toggle_button_pressed s = 0 -> user_ready_flag s = 0 ->
      servo_target_ocr s' = 375).
Proof.
  intros Hs Hm Ha s' c. apply reachable_Inv in Hs.
  assert (Ha' : homing_armed s = true).
  { unfold homing_armed.
    destruct (Z.eqb_spec (servo_homing_required s) 0) as [E|E];
      [|reflexivity].
    destruct (inv_ready s Hs) as [E'|E']; [lia|].
    rewrite E'. reflexivity. }
  set (t := toggle_button_block pind1 [] s).
  assert (Ht : Inv t) by now apply Inv_toggle_button_block.
  assert (Hc : servo_current_ocr t = c).
  { unfold t, toggle_button_block, delay_ms. cbn [fold_left]. cbv zeta.
    fields. rewrite Hm. cbn [Z.eqb]. cbv iota.
    repeat break_if; reflexivity. }
  assert (Hmt : motor_running t = 0).
  { unfold t, toggle_button_block, delay_ms. cbn [fold_left]. cbv zeta.
    fields. rewrite Hm. cbn [Z.eqb]. cbv iota.
    repeat break_if; assumption. }
  assert (Hat : homing_armed t = true).
  { unfold t, toggle_button_block, delay_ms. cbn [fold_left]. cbv zeta.
    fields. rewrite Hm. cbn [Z.eqb]. cbv iota.
    repeat break_if; try assumption; reflexivity. }
  destruct (homing_block pind2 [] t Ht Hmt Hat) as (A & B & C & D & _).
  change (fan_state_block pind2 [] t) with s' in A, B, C, D.
  rewrite Hc in B, D. consts.
  split; [exact A|]. split; [exact B|]. split; [|split].
  - intros E. rewrite D, E. reflexivity.
  - intros Hnp.
    assert (E : t = set_toggle_button_pressed 0 s \/ t = s).
    { unfold t, toggle_button_block.
      destruct (Z.eqb_spec (Z.land pind1 (bit SWITCH_TOGGLE_PIN)) 0);
        cbn [negb]; [now left|].
      destruct (Z.eqb_spec (toggle_button_pressed s) 0); [tauto|now right]. }
    rewrite C, D. destruct E as [-> | ->]; fields.
    + split; [reflexivity|]. intros Hne.
      destruct (Z.eqb_spec c 375); [contradiction|reflexivity].
    + split; [reflexivity|]. intros Hne.
      destruct (Z.eqb_spec c 375); [contradiction|reflexivity].
  - intros Hp Hl Hr. rewrite C.
    unfold t, toggle_button_block, delay_ms. cbn [fold_left]. cbv zeta.
    apply Z.eqb_neq in Hp. rewrite Hp, Hl. cbn [negb Z.eqb]. cbv iota.
    fields. rewrite Hr. reflexivity.
Qed.

Lemma C7_homing_witness :
  servo_current_ocr (main_loop_body (poll 0 0) st_reset_off_centre) = 376
  /\ servo_target_ocr (main_loop_body (poll 0 0) st_reset_off_centre)
     = servo_target_ocr st_reset_off_centre.
Proof.
  assert (Hs : reachable st_reset_off_centre) by exact (reachable_run _).
  assert (Hm : motor_running st_reset_off_centre = 0)
    by (vm_compute; reflexivity).
  assert (Ha : servo_homing_required st_reset_off_centre <> 0
               \/ user_ready_flag st_reset_off_centre <> 0)
    by (left; vm_compute; discriminate).
  pose proof (C7_homing st_reset_off_centre 0 0 Hs Hm Ha) as (_ & A & _ & B & _).
  split.
  - rewrite A. vm_compute. reflexivity.
  - exact (proj1 (B (or_introl eq_refl))).
Defined.



(** C9 (servo range).  The property fails when the handler runs between
    the two byte loads of the main loop's read of [servo_target_ocr] at
    line 204.  With the motor running, the servo at 610 and the target just
    set to 140 (16#008C) by angle byte 10, the pass loads the low byte
    16#8C; angle byte 170 is handled and sets the target to 610 (16#0262);
    the pass loads the high byte 16#02 and compares the position with 652
    (16#028C); it steps the position to 611, above [SERVO_CW_MAX], and
    writes 611 to [OCR1A].  What holds: at start-up position and target are
    375; a pass changes the position by at most one count, also with the
    read split, and the handler does not change it for any byte; a split
    read with no handler run between the loads is the undivided read; and
    over the runs of the model, in which no read is split, position and
    target stay in 140..610. *)
Theorem C9_servo_range :
  (reachable st_at_cw_limit
   /\ motor_running st_at_cw_limit = 1
   /\ servo_current_ocr st_at_cw_limit = 610
   /\ servo_target_ocr st_at_cw_limit = 140
   /\ fst (read_target_split [170] st_at_cw_limit) = 652
   /\ servo_current_ocr (main_loop_body_split (poll 0 0) [170] st_at_cw_limit)
      = 611
   /\ OCR1A (main_loop_body_split (poll 0 0) [170] st_at_cw_limit) = 611
   /\ servo_target_ocr (main_loop_body_split (poll 0 0) [170] st_at_cw_limit)
      = 610)
  /\ (servo_current_ocr initial_state = 375
      /\ servo_target_ocr initial_state = 375)
  /\ (forall s : State,
        reachable s ->
        (140 <= servo_current_ocr s <= 610
         /\ 140 <= servo_target_ocr s <= 610)
        /\ (forall i : LoopInput,
              Z.abs (servo_current_ocr (main_loop_body i s)
                     - servo_current_ocr s) <= 1)
        /\ (forall (i : LoopInput) (rx : list Z),
              Z.abs (servo_current_ocr (main_loop_body_split i rx s)
                     - servo_current_ocr s) <= 1))
  /\ (forall (b : Z) (s : State),
        servo_current_ocr (SPI_STC_vect b s) = servo_current_ocr s)
  /\ (forall (i : LoopInput) (s : State),
        main_loop_body_split i [] s = main_loop_body i s).
Proof.
  split; [|split; [|split; [|split]]].
  - split; [exact (reachable_run _)|].
    vm_compute. repeat split.
  - split; reflexivity.
  - intros s Hs. apply reachable_Inv in Hs.
    split; [|split].
    + destruct Hs. consts. split; assumption.
    + intros i. now apply main_loop_body_current.
    + intros i rx. now apply main_loop_body_split_current.
  - intros b s. apply SPI_STC_vect_current.
  - intros i s. apply main_loop_body_split_nil.
Qed.

Lemma C9_servo_range_witness :
  reachable st_preempted
  /\ 140 <= servo_current_ocr st_preempted <= 610
  /\ 140 <= servo_target_ocr st_preempted <= 610.
Proof.
  assert (Hs : reachable st_preempted) by exact (reachable_run _).
  split; [exact Hs|].
  exact (proj1 (proj1 (proj2 (proj2 C9_servo_range)) st_preempted Hs)).
Defined.

(** C10 (speed level while stopped).  The property fails on a reachable
    state: with the motor running, a pass sees the speed button pressed,
    tests [motor_running], and spins in the 50 ms debounce wait; the
    handler receives byte 200 during the wait and stops the fan, which
    zeroes the level; the pass then increments the level.  The motor is
    stopped and the level is 1, and it stays so over later passes.
    Starting and stopping the fan both set the level to 0, so a restart
    begins at level 0; and over runs in which every handler run falls
    between two passes, a stopped motor has level 0. *)
Theorem C10_level_after_preempted_press :
  (reachable st_preempted
   /\ motor_running st_preempted = 0 /\ speed_level st_preempted = 1
   /\ motor_running (run_loop (repeat (poll 0 0) 10%nat) st_preempted) = 0
   /\ speed_level (run_loop (repeat (poll 0 0) 10%nat) st_preempted) = 1)
  /\ (forall s : State,
        speed_level (start_fan s) = 0 /\ speed_level (stop_fan s) = 0)
  /\ (forall s : State,
        reachable_whole s -> motor_running s = 0 -> speed_level s = 0).
Proof.
  split; [|split].
  - split; [exact (reachable_run _)|].
    vm_compute. repeat split.
  - intros s. split; [apply start_fan_level|apply stop_fan_level].
  - intros s Hs. now apply level_cleared_whole.
Qed.

Lemma C10_level_after_preempted_press_witness :
  reachable_whole st_reset_off_centre
  /\ speed_level st_reset_off_centre = 0.
Proof.
  assert (Hs : reachable_whole st_reset_off_centre).
  { eexists. split; [|reflexivity]. repeat constructor. }
  split; [exact Hs|].
  apply (proj2 (proj2 C10_level_after_preempted_press) _ Hs).
  vm_compute. reflexivity.
Defined.

(** * Further properties of the code *)

(** ** Single bits *)

Lemma testbit_bit_eq (j k : Z) :
  0 <= j -> 0 <= k -> Z.testbit (bit j) k = (k =? j).
Proof.
  intros Hj Hk. unfold bit. rewrite Z.shiftl_spec by assumption.
  destruct (Z.eqb_spec k j) as [->|Hne].
  - now rewrite Z.sub_diag.
  - destruct (k - j) as [|p|p] eqn:E; [lia| |reflexivity].
    destruct p; reflexivity.
Qed.

(** Rewrite the bit [k] of a combination of single bits into tests on [k]. *)
Ltac bitwise :=
  repeat first
    [ rewrite Z.lor_spec | rewrite Z.land_spec | rewrite Z.lnot_spec by lia
    | rewrite testbit_bit_eq by (try discriminate; lia) ].

Ltac pins :=
  unfold LED_LOW_PIN, LED_MEDIUM_PIN, LED_HIGH_PIN, FAN_PWM_PIN,
    SWITCH_SPEED_PIN, SWITCH_TOGGLE_PIN, SERVO_PIN, SPI_PIN_SS, SPI_PIN_SCK,
    SPI_PIN_MOSI, SPI_PIN_MISO, SPE, SPIE, COM1A1, WGM11, WGM13, WGM12,
    CS11, CS10, COM3A1, WGM31, WGM33, WGM32, CS30 in *.

(** ** The indicator LEDs *)

Lemma update_leds_exact (s : State) :
  update_leds s
  = set_LED_PORT
      (Z.lor (Z.land (LED_PORT s) (Z.lnot LED_MASK))
         (led_pattern (motor_running s) (speed_level s))) s.
Proof.
  unfold update_leds, led_pattern, LED_MASK. cbv zeta. fields.
  repeat break_if; rewrite ?Z.lor_0_r, <- ?Z.lor_assoc;
    destruct s; reflexivity.
Qed.

(** X1.  [update_leds] rewrites the three LED pins of the port and no
    other pin: the low LED is lit exactly when the motor runs at level 0, 1
    or 2, the medium LED when it runs at level 1 or 2, the high LED when it
    runs at level 2; with the motor stopped, or the level out of range, no
    LED is lit. *)
Theorem X1_update_leds_pins (s : State) (k : Z) :
  0 <= k ->
  Z.testbit (LED_PORT (update_leds s)) k
  = if k =? LED_LOW_PIN then
      negb (motor_running s =? 0)
      && ((speed_level s =? 0) || (speed_level s =? 1) || (speed_level s =? 2))
    else if k =? LED_MEDIUM_PIN then
      negb (motor_running s =? 0)
      && ((speed_level s =? 1) || (speed_level s =? 2))
    else if k =? LED_HIGH_PIN then
      negb (motor_running s =? 0) && (speed_level s =? 2)
    else Z.testbit (LED_PORT s) k.
Proof.
  intros Hk. rewrite update_leds_exact. fields.
  unfold led_pattern, LED_MASK.
  destruct (Z.eqb_spec (motor_running s) 0) as [Em|Em];
    destruct (Z.eqb_spec (speed_level s) 2) as [E2|E2];
    destruct (Z.eqb_spec (speed_level s) 1) as [E1|E1];
    destruct (Z.eqb_spec (speed_level s) 0) as [E0|E0];
    try lia; pins; bitwise; rewrite ?Z.testbit_0_l;
    destruct (Z.eqb_spec k 0); destruct (Z.eqb_spec k 1);
    destruct (Z.eqb_spec k 2); try lia; cbn [negb andb orb];
    rewrite ?andb_true_r, ?andb_false_r, ?orb_false_r; reflexivity.
Qed.

Lemma X1_update_leds_pins_witness :
  Z.testbit (LED_PORT (update_leds st_running)) 0 = true
  /\ Z.testbit (LED_PORT (update_leds st_running)) 1 = false.
Proof.
  split.
  - rewrite (X1_update_leds_pins st_running 0) by lia.
    vm_compute. reflexivity.
  - rewrite (X1_update_leds_pins st_running 1) by lia.
    vm_compute. reflexivity.
Defined.

(** ** The fan functions, field by field *)

Lemma set_fan_speed_exact (level : Z) (s : State) :
  set_fan_speed level s
  = set_LED_PORT
      (Z.lor (Z.land (LED_PORT s) (Z.lnot LED_MASK))
         (led_pattern (motor_running s) (speed_level s)))
      (set_OCR3A (switch_duty level (OCR3A s)) s).
Proof.
  unfold set_fan_speed, switch_duty. cbv zeta.
  rewrite update_leds_exact.
  repeat break_if; destruct s; reflexivity.
Qed.

Lemma stop_fan_exact (s : State) :
  stop_fan s =
  set_LED_PORT (Z.land (LED_PORT s) (Z.lnot LED_MASK))
    (set_speed_level 0
       (set_FAN_PWM_PORT (Z.land (FAN_PWM_PORT s) (Z.lnot (bit FAN_PWM_PIN)))
          (set_TCCR3A (Z.land (TCCR3A s) (Z.lnot (bit COM3A1)))
             (set_TCCR3B (Z.land (TCCR3B s) (Z.lnot (bit CS30)))
                (set_motor_running 0 s))))).
Proof.
  unfold stop_fan. cbv zeta. rewrite update_leds_exact. fields.
  unfold led_pattern. change (0 =? 0) with true. cbv iota.
  rewrite Z.lor_0_r. reflexivity.
Qed.

Lemma start_fan_exact (s : State) :
  start_fan s =
  set_LED_PORT
    (Z.lor (Z.land (LED_PORT s) (Z.lnot LED_MASK)) (bit LED_LOW_PIN))
    (set_TCCR3B (Z.lor (TCCR3B s) (bit CS30))
       (set_OCR3A DUTY_HIGH
          (set_TCCR3A (Z.lor (TCCR3A s) (bit COM3A1))
             (set_speed_level 0 (set_motor_running 1 s))))).
Proof.
  unfold start_fan. cbv zeta. fields. rewrite set_fan_speed_exact. fields.
  reflexivity.
Qed.

(** X2.  What the fan functions show on the LEDs, in every state:
    [stop_fan] leaves the three LEDs dark, [start_fan] leaves the low LED
    lit and the two others dark, and [set_fan_speed] shows what
    [update_leds] shows, the motor flag and the global [speed_level],
    whatever its argument.  None of them changes another pin of the
    port. *)
Theorem X2_fan_functions_leds (s : State) (k : Z) :
  0 <= k ->
  Z.testbit (LED_PORT (stop_fan s)) k
  = (if (k =? LED_LOW_PIN) || (k =? LED_MEDIUM_PIN) || (k =? LED_HIGH_PIN)
     then false else Z.testbit (LED_PORT s) k)
  /\ Z.testbit (LED_PORT (start_fan s)) k
     = (if k =? LED_LOW_PIN then true
        else if (k =? LED_MEDIUM_PIN) || (k =? LED_HIGH_PIN) then false
        else Z.testbit (LED_PORT s) k)
  /\ (forall level : Z,
        LED_PORT (set_fan_speed level s) = LED_PORT (update_leds s)).
Proof.
  intros Hk. rewrite stop_fan_exact, start_fan_exact. fields.
  split; [|split].
  - unfold LED_MASK. pins. bitwise.
    destruct (Z.eqb_spec k 0); destruct (Z.eqb_spec k 1);
      destruct (Z.eqb_spec k 2); try lia; cbn [negb andb orb];
      rewrite ?andb_true_r, ?andb_false_r; reflexivity.
  - unfold LED_MASK. pins. bitwise.
    destruct (Z.eqb_spec k 0); destruct (Z.eqb_spec k 1);
      destruct (Z.eqb_spec k 2); try lia; cbn [negb andb orb];
      rewrite ?andb_true_r, ?andb_false_r, ?orb_true_r, ?orb_false_r;
      reflexivity.
  - intros level. rewrite set_fan_speed_exact, update_leds_exact. fields.
    reflexivity.
Qed.

Lemma X2_fan_functions_leds_witness :
  Z.testbit (LED_PORT (stop_fan st_running)) 0 = false
  /\ Z.testbit (LED_PORT (start_fan st_ready)) 0 = true
  /\ Z.testbit (LED_PORT (start_fan st_ready)) 1 = false.
Proof.
  assert (H0 : 0 <= 0) by lia. assert (H1 : 0 <= 1) by lia.
  split; [|split].
  - rewrite (proj1 (X2_fan_functions_leds st_running 0 H0)).
    vm_compute. reflexivity.
  - rewrite (proj1 (proj2 (X2_fan_functions_leds st_ready 0 H0))).
    vm_compute. reflexivity.
  - rewrite (proj1 (proj2 (X2_fan_functions_leds st_ready 1 H1))).
    vm_compute. reflexivity.
Defined.

(** X3.  What the fan functions do to timer 3 and to the fan pin, in every
    state.  [start_fan] sets COM3A1 in [TCCR3A] and CS30 in [TCCR3B] and
    [stop_fan] clears them; neither changes another bit of the two
    registers, so the waveform mode bits written at set-up survive, nor the
    period register.  [stop_fan] clears the port bit of the fan pin and no
    other bit of that port, and leaves the duty register; [start_fan]
    leaves the port.  On the registers as [init_timer3_fan_pwm] writes
    them, starting gives 130 and 25, and stopping again gives back 2 and
    24. *)
Theorem X3_fan_functions_timer (s : State) (k : Z) :
  0 <= k ->
  (Z.testbit (TCCR3A (start_fan s)) k
   = (k =? COM3A1) || Z.testbit (TCCR3A s) k
   /\ Z.testbit (TCCR3B (start_fan s)) k
      = (k =? CS30) || Z.testbit (TCCR3B s) k
   /\ FAN_PWM_PORT (start_fan s) = FAN_PWM_PORT s
   /\ ICR3 (start_fan s) = ICR3 s)
  /\ (Z.testbit (TCCR3A (stop_fan s)) k
      = negb (k =? COM3A1) && Z.testbit (TCCR3A s) k
      /\ Z.testbit (TCCR3B (stop_fan s)) k
         = negb (k =? CS30) && Z.testbit (TCCR3B s) k
      /\ Z.testbit (FAN_PWM_PORT (stop_fan s)) k
         = negb (k =? FAN_PWM_PIN) && Z.testbit (FAN_PWM_PORT s) k
      /\ ICR3 (stop_fan s) = ICR3 s
      /\ OCR3A (stop_fan s) = OCR3A s)
  /\ (let t := init_timer3_fan_pwm s in
      TCCR3A t = 2 /\ TCCR3B t = 24
      /\ TCCR3A (start_fan t) = 130 /\ TCCR3B (start_fan t) = 25
      /\ TCCR3A (stop_fan (start_fan t)) = 2
      /\ TCCR3B (stop_fan (start_fan t)) = 24).
Proof.
  intros Hk. split; [|split].
  - rewrite start_fan_exact. fields. pins. bitwise.
    rewrite (orb_comm (Z.testbit (TCCR3A s) k)).
    rewrite (orb_comm (Z.testbit (TCCR3B s) k)).
    repeat split; reflexivity.
  - rewrite stop_fan_exact. fields. pins. bitwise.
    rewrite (andb_comm (Z.testbit (TCCR3A s) k)).
    rewrite (andb_comm (Z.testbit (TCCR3B s) k)).
    rewrite (andb_comm (Z.testbit (FAN_PWM_PORT s) k)).
    repeat split; reflexivity.
  - cbv zeta. rewrite stop_fan_exact, start_fan_exact.
    unfold init_timer3_fan_pwm. cbv zeta. fields.
    repeat split; reflexivity.
Qed.

Lemma X3_fan_functions_timer_witness :
  Z.testbit (TCCR3A (start_fan st_ready)) 7 = true
  /\ Z.testbit (TCCR3A (start_fan st_ready)) 1 = true
  /\ Z.testbit (TCCR3B (stop_fan st_running)) 0 = false.
Proof.
  assert (H0 : 0 <= 0) by lia. assert (H1 : 0 <= 1) by lia.
  assert (H7 : 0 <= 7) by lia.
  split; [|split].
  - rewrite (proj1 (proj1 (X3_fan_functions_timer st_ready 7 H7))).
    vm_compute. reflexivity.
  - rewrite (proj1 (proj1 (X3_fan_functions_timer st_ready 1 H1))).
    vm_compute. reflexivity.
  - rewrite (proj1 (proj2 (proj1 (proj2
              (X3_fan_functions_timer st_running 0 H0))))).
    vm_compute. reflexivity.
Defined.

(** X4.  The duty register by level, in every state.  [set_fan_speed]
    loads the table entry for the levels 0, 1 and 2, which are 1199, 799
    and 399, a higher level having the smaller value; for any other level
    it leaves the register as it is.  It changes nothing but the duty
    register and the LED port.  [start_fan] loads the entry of level 0. *)
Theorem X4_duty_by_level (level : Z) (s : State) :
  (0 <= level <= 2 ->
   OCR3A (set_fan_speed level s) = duty_table level
   /\ (OCR3A (set_fan_speed level s) = 1199
       \/ OCR3A (set_fan_speed level s) = 799
       \/ OCR3A (set_fan_speed level s) = 399))
  /\ (~ 0 <= level <= 2 -> OCR3A (set_fan_speed level s) = OCR3A s)
  /\ (exists d led,
        set_fan_speed level s = set_LED_PORT led (set_OCR3A d s))
  /\ duty_table 2 < duty_table 1 < duty_table 0
  /\ OCR3A (start_fan s) = duty_table 0.
Proof.
  rewrite start_fan_exact, set_fan_speed_exact. fields.
  unfold switch_duty, duty_table.
  split; [|split; [|split; [|split]]].
  - intros Hl.
    destruct (Z.eqb_spec level 0); [|destruct (Z.eqb_spec level 1);
      [|destruct (Z.eqb_spec level 2); [|lia]]];
      (split; [reflexivity|vm_compute; tauto]).
  - intros Hl.
    destruct (Z.eqb_spec level 0); [lia|]. destruct (Z.eqb_spec level 1); [lia|].
    destruct (Z.eqb_spec level 2); [lia|]. reflexivity.
  - do 2 eexists. reflexivity.
  - split; reflexivity.
  - reflexivity.
Qed.

Lemma X4_duty_by_level_witness :
  OCR3A (set_fan_speed 1 st_running) = 799
  /\ OCR3A (set_fan_speed 3 st_running) = 1199.
Proof.
  split.
  - rewrite (proj1 (proj1 (X4_duty_by_level 1 st_running) ltac:(lia))).
    reflexivity.
  - rewrite (proj1 (proj2 (X4_duty_by_level 3 st_running)) ltac:(lia)).
    vm_compute. reflexivity.
Defined.

(** ** The output registers over a run *)

Ltac use_out H :=
  let H1 := fresh "Oled" in let H2 := fresh "Otccr3a" in
  let H3 := fresh "Otccr3b" in let H4 := fresh "Oduty" in
  let H5 := fresh "Oservo" in let H6 := fresh "Oreply" in
  let H7 := fresh "Oready" in
  destruct H as [H1 H2 H3 H4 H5 H6 H7].

(** Make the motor flag and the level of [s] concrete. *)
Ltac concrete s H :=
  let Em := fresh "Em" in let El := fresh "El" in
  destruct (inv_motor s H) as [Em|Em];
  (assert (El : speed_level s = 0 \/ speed_level s = 1 \/ speed_level s = 2)
     by (pose proof (inv_level s H); lia));
  destruct El as [El|[El|El]].

Ltac show_out :=
  constructor; fields; consts;
  repeat match goal with
         | H : _ = _ |- _ => rewrite H
         end;
  try (intros; first [reflexivity | assumption | lia | tauto | discriminate
                     | contradiction | congruence
                     | match goal with
                       | H : _ -> OCR3A _ = _ |- _ =>
                           rewrite H by congruence; congruence
                       end]).

Lemma Outputs_initial : Outputs initial_state.
Proof. constructor; vm_compute; intuition congruence. Qed.

Lemma Outputs_SPI_STC_vect (b : Z) (s : State) :
  Inv s -> Outputs s -> Outputs (SPI_STC_vect b s).
Proof.
  intros H O. unfold SPI_STC_vect. cbv zeta.
  pose proof (inv_status s H) as Hst. consts.
  repeat break_if; tests; rewrite ?stop_fan_exact, ?start_fan_exact;
    use_out O; concrete s H.
  all: show_out.
Qed.

Lemma Outputs_delay_ms (rx : list Z) (s : State) :
  Inv s -> Outputs s -> Outputs (delay_ms rx s).
Proof.
  revert s. induction rx as [|b rx IH]; intros s H O; [exact O|].
  apply IH; [now apply Inv_SPI_STC_vect|now apply Outputs_SPI_STC_vect].
Qed.

Lemma Outputs_toggle_button_block (pind : Z) (rx : list Z) (s : State) :
  Inv s -> Outputs s -> Outputs (toggle_button_block pind rx s).
Proof.
  intros H O. unfold toggle_button_block.
  destruct (negb _); [destruct (toggle_button_pressed s =? 0)|].
  - assert (H1 : Inv (delay_ms rx (set_toggle_button_pressed 1 s))).
    { apply Inv_delay_ms. use_inv H. show_inv. }
    assert (O1 : Outputs (delay_ms rx (set_toggle_button_pressed 1 s))).
    { apply Outputs_delay_ms; [use_inv H; show_inv|].
      use_out O. constructor; fields; assumption. }
    cbv zeta. revert H1 O1.
    generalize (delay_ms rx (set_toggle_button_pressed 1 s)).
    intros t H1 O1. fields.
    repeat break_if; tests; rewrite ?stop_fan_exact;
      use_out O1; concrete t H1.
    all: show_out.
  - exact O.
  - use_out O. constructor; fields; assumption.
Qed.

Lemma switch_duty_table (level old : Z) :
  0 <= level <= 2 -> switch_duty level old = duty_table level.
Proof.
  intros Hl. unfold switch_duty, duty_table.
  repeat break_if; tests; try reflexivity; lia.
Qed.

Lemma Outputs_speed_button_block (pind : Z) (rx : list Z) (s : State) :
  Inv s -> Outputs s -> Outputs (speed_button_block pind rx s).
Proof.
  intros H O. unfold speed_button_block.
  destruct (negb _); [destruct (speed_button_pressed s =? 0)|].
  - assert (H1 : Inv (delay_ms rx (set_speed_button_pressed 1 s))).
    { apply Inv_delay_ms. use_inv H. show_inv. }
    assert (O1 : Outputs (delay_ms rx (set_speed_button_pressed 1 s))).
    { apply Outputs_delay_ms; [use_inv H; show_inv|].
      use_out O. constructor; fields; assumption. }
    cbv zeta. revert H1 O1.
    generalize (delay_ms rx (set_speed_button_pressed 1 s)).
    intros t H1 O1. fields.
    rewrite uint8_small by (pose proof (inv_level t H1); lia).
    rewrite set_fan_speed_exact.
    use_out O1. concrete t H1; rewrite ?El; cbn [Z.add Z.ltb Z.compare
      Pos.add Pos.compare Pos.compare_cont Pos.succ]; fields.
    all: show_out.
  - exact O.
  - use_out O. constructor; fields; assumption.
Qed.

Lemma Outputs_fan_state_block (pind : Z) (rx : list Z) (s : State) :
  Inv s -> Outputs s -> Outputs (fan_state_block pind rx s).
Proof.
  intros H O. unfold fan_state_block. cbv zeta.
  destruct (negb (motor_running s =? 0)).
  - pose proof (Inv_speed_button_block pind rx s H) as H1.
    pose proof (Outputs_speed_button_block pind rx s H O) as O1.
    revert H1 O1. generalize (speed_button_block pind rx s).
    intros t H1 O1. unfold servo_track. cbv zeta.
    pose proof (inv_current t H1). pose proof (inv_target t H1). consts.
    repeat break_if; tests; fields; rewrite ?uint16_small by lia;
      use_out O1; concrete t H1.
    all: show_out.
  - unfold servo_home, stopped_status. cbv zeta.
    pose proof (inv_current s H). consts.
    repeat break_if; tests; fields; rewrite ?uint16_small in * by lia;
      use_out O; concrete s H.
    all: show_out.
Qed.

Lemma Outputs_main_loop_body (i : LoopInput) (s : State) :
  Inv s -> Outputs s -> Outputs (main_loop_body i s).
Proof.
  intros H O. unfold main_loop_body.
  apply Outputs_fan_state_block;
    [now apply Inv_toggle_button_block|now apply Outputs_toggle_button_block].
Qed.

Lemma reachable_Outputs (s : State) : reachable s -> Outputs s.
Proof.
  intros [es <-].
  assert (G : forall l t, Inv t -> Outputs t -> Outputs (run l t)).
  { induction l as [|e l IH]; intros t Ht Ot; [exact Ot|].
    destruct e as [i|b]; apply IH.
    - now apply Inv_main_loop_body.
    - now apply Outputs_main_loop_body.
    - now apply Inv_SPI_STC_vect.
    - now apply Outputs_SPI_STC_vect. }
  apply G; [apply Inv_initial|apply Outputs_initial].
Qed.

(** X5.  In every reachable state the servo compare register equals the
    tracked servo position: every step of the position is written to the
    timer. *)
Theorem X5_servo_register (s : State) :
  reachable s -> OCR1A s = servo_current_ocr s.
Proof. intros Hs. apply (out_servo s (reachable_Outputs s Hs)). Qed.

Lemma X5_servo_register_witness :
  OCR1A st_reset_off_centre = servo_current_ocr st_reset_off_centre.
Proof. exact (X5_servo_register st_reset_off_centre (reachable_run _)). Defined.

(** X6.  In every reachable state the byte queued for the host is one of
    the three status codes 0, 111 and 222. *)
Theorem X6_reply_is_status_code (s : State) :
  reachable s -> SPDR s = 0 \/ SPDR s = 111 \/ SPDR s = 222.
Proof. intros Hs. apply (out_reply s (reachable_Outputs s Hs)). Qed.

Lemma X6_reply_is_status_code_witness :
  SPDR st_started = 0 \/ SPDR st_started = 111 \/ SPDR st_started = 222.
Proof. exact (X6_reply_is_status_code st_started (reachable_run _)). Defined.

(** ** What the handler does to the motor flag *)

Lemma SPI_STC_vect_motor (b : Z) (s : State) :
  motor_running (SPI_STC_vect b s)
  = if b =? 200 then 0
    else if (b =? 255) && (current_spi_status s =? STATUS_READY) then 1
    else motor_running s.
Proof.
  unfold SPI_STC_vect. cbv zeta.
  destruct (Z.eqb_spec b 200) as [E|E].
  - destruct (Z.eqb_spec (motor_running s) 0) as [Em|Em]; frames; fields;
      [exact Em|reflexivity].
  - destruct (Z.leb_spec 10 b), (Z.leb_spec b 170), (Z.eqb_spec b 255);
      cbn [andb]; try lia;
      repeat break_if; frames; fields; reflexivity.
Qed.

Lemma status_for_ready (s : State) :
  status_for s = STATUS_READY ->
  motor_running s = 0 /\ user_ready_flag s = 1
  /\ servo_current_ocr s = SERVO_CENTER.
Proof.
  unfold status_for. consts.
  destruct (Z.eqb_spec (motor_running s) 0) as [Em|Em];
    destruct (Z.eqb_spec (user_ready_flag s) 1) as [Er|Er];
    destruct (Z.eqb_spec (servo_current_ocr s) 375) as [Ec|Ec];
    cbn [negb andb]; intros H; try discriminate H.
  repeat split; assumption.
Qed.

(** X7.  The motor flag and the handler, in every state: the handler sets
    a clear flag only for byte 255 with the stored status READY (111), and
    then to 1; it clears a set flag only for byte 200; byte 255 with status
    READY always leaves it 1 and byte 200 always leaves it 0.  A pass
    during which no transfer is handled stores READY only if it ends with
    the motor stopped, [user_ready_flag] 1 and the servo at 375. *)
Theorem X7_motor_flag_transitions (b : Z) (s : State) :
  (motor_running s = 0 -> motor_running (SPI_STC_vect b s) <> 0 ->
   b = 255 /\ current_spi_status s = 111
   /\ motor_running (SPI_STC_vect b s) = 1)
  /\ (motor_running s <> 0 -> motor_running (SPI_STC_vect b s) = 0 ->
      b = 200)
  /\ (b = 255 -> current_spi_status s = 111 ->
      motor_running (SPI_STC_vect b s) = 1)
  /\ (b = 200 -> motor_running (SPI_STC_vect b s) = 0)
  /\ (forall i : LoopInput,
        undisturbed i ->
        let s' := main_loop_body i s in
        current_spi_status s' = 111 ->
        motor_running s' = 0 /\ user_ready_flag s' = 1
        /\ servo_current_ocr s' = 375).
Proof.
  rewrite SPI_STC_vect_motor. consts.
  split; [|split; [|split; [|split]]].
  - destruct (Z.eqb_spec b 200) as [E|E]; [congruence|].
    destruct (Z.eqb_spec b 255) as [E'|E'];
      destruct (Z.eqb_spec (current_spi_status s) 111) as [St|St];
      cbn [andb]; intros; try congruence.
    repeat split; assumption.
  - destruct (Z.eqb_spec b 200) as [E|E]; [intros; assumption|].
    destruct ((b =? 255) && (current_spi_status s =? 111));
      intros; [discriminate|contradiction].
  - intros -> ->. reflexivity.
  - intros ->. reflexivity.
  - intros i Hu. destruct Hu as [_ Hi]. cbv zeta.
    unfold main_loop_body. rewrite Hi.
    rewrite fan_state_block_status. apply status_for_ready.
Qed.

Lemma X7_motor_flag_transitions_witness :
  motor_running (SPI_STC_vect 255 st_ready) = 1
  /\ servo_current_ocr (main_loop_body (poll 2 0) initial_state) = 375.
Proof.
  split.
  - apply (proj1 (proj2 (proj2 (X7_motor_flag_transitions 255 st_ready))));
      vm_compute; reflexivity.
  - apply (proj2 (proj2 (proj2 (proj2
             (X7_motor_flag_transitions 0 initial_state))))
             (poll 2 0) (conj eq_refl eq_refl)).
    vm_compute. reflexivity.
Defined.

Lemma SPI_STC_vect_other (b : Z) (s : State) :
  b <> 200 -> b <> 255 -> ~ (10 <= b <= 170) ->
  SPI_STC_vect b s = set_SPDR (current_spi_status s) s.
Proof.
  intros H1 H2 H3. unfold SPI_STC_vect. cbv zeta.
  destruct (Z.eqb_spec b 200); [contradiction|].
  destruct (Z.eqb_spec b 255); [contradiction|].
  destruct (Z.leb_spec 10 b), (Z.leb_spec b 170); cbn [andb];
    try reflexivity; lia.
Qed.

(** X8.  A byte that is no command (neither 200, nor 255, nor in
    10..170: the poll byte 0 and every other value) changes nothing but the
    reply register, which receives the stored status. *)
Theorem X8_other_bytes_ignored (b : Z) (s : State) :
  b <> 200 -> b <> 255 -> ~ (10 <= b <= 170) ->
  SPI_STC_vect b s = set_SPDR (current_spi_status s) s.
Proof. apply SPI_STC_vect_other. Qed.

Lemma X8_other_bytes_ignored_witness :
  SPI_STC_vect 0 st_running = set_SPDR (current_spi_status st_running) st_running
  /\ SPI_STC_vect 9 st_running
     = set_SPDR (current_spi_status st_running) st_running
  /\ SPI_STC_vect 171 st_running
     = set_SPDR (current_spi_status st_running) st_running.
Proof.
  split; [|split]; apply X8_other_bytes_ignored; lia.
Defined.

(** ** Handling the same byte twice *)

Lemma led_low_again (x : Z) :
  Z.lor (Z.land (Z.lor (Z.land x (Z.lnot LED_MASK)) (bit LED_LOW_PIN))
           (Z.lnot LED_MASK)) (bit LED_LOW_PIN)
  = Z.lor (Z.land x (Z.lnot LED_MASK)) (bit LED_LOW_PIN).
Proof.
  rewrite Z.land_lor_distr_l, <- Z.land_assoc, Z.land_diag.
  change (Z.land (bit LED_LOW_PIN) (Z.lnot LED_MASK)) with 0.
  now rewrite Z.lor_0_r.
Qed.

Lemma lor_bit_again (x m : Z) : Z.lor (Z.lor x m) m = Z.lor x m.
Proof. now rewrite <- Z.lor_assoc, Z.lor_diag. Qed.

Lemma start_fan_again (v : Z) (s : State) :
  start_fan (set_SPDR v (start_fan s)) = set_SPDR v (start_fan s).
Proof.
  rewrite !start_fan_exact. fields.
  rewrite led_low_again, !lor_bit_again.
  generalize (Z.lor (Z.land (LED_PORT s) (Z.lnot LED_MASK)) (bit LED_LOW_PIN)).
  generalize (Z.lor (TCCR3B s) (bit CS30)).
  generalize (Z.lor (TCCR3A s) (bit COM3A1)).
  intros a c l. destruct s; records; reflexivity.
Qed.

Lemma SPI_STC_vect_not_ready (s : State) :
  current_spi_status s <> STATUS_READY ->
  SPI_STC_vect 255 s = set_SPDR (current_spi_status s) s.
Proof.
  intros E. unfold SPI_STC_vect. cbv zeta. change (255 =? 200) with false.
  change ((10 <=? 255) && (255 <=? 170)) with false.
  change (255 =? 255) with true. cbv iota.
  apply Z.eqb_neq in E. now rewrite E.
Qed.

Lemma reset_twice (s : State) :
  SPI_STC_vect 200 (SPI_STC_vect 200 s) = SPI_STC_vect 200 s.
Proof.
  assert (E : exists t, motor_running t = 0
              /\ SPI_STC_vect 200 s
                 = set_SPDR (current_spi_status t)
                     (set_servo_homing_required 1 (set_user_ready_flag 0 t))).
  { unfold SPI_STC_vect. cbv zeta. change (200 =? 200) with true. cbv iota.
    destruct (Z.eqb_spec (motor_running s) 0) as [Em|Em].
    - exists s. fields. split; [exact Em|reflexivity].
    - destruct (stop_fan_frame s) as [led ->].
      match goal with
      | |- exists t, _ /\ set_SPDR _ (set_servo_homing_required 1
                                       (set_user_ready_flag 0 ?x)) = _ =>
          exists x
      end.
      fields. split; reflexivity. }
  destruct E as (t & Em & ->).
  unfold SPI_STC_vect. cbv zeta. change (200 =? 200) with true. cbv iota.
  fields. rewrite Em. change (0 =? 0) with true. cbv iota.
  destruct t; records; reflexivity.
Qed.

Lemma start_fan_status (s : State) :
  current_spi_status (start_fan s) = current_spi_status s.
Proof. destruct (start_fan_frame s) as [led ->]. reflexivity. Qed.

Lemma SPI_STC_vect_start (s : State) :
  current_spi_status s = STATUS_READY ->
  SPI_STC_vect 255 s = set_SPDR STATUS_READY (start_fan s).
Proof.
  intros E. unfold SPI_STC_vect. cbv zeta. change (255 =? 200) with false.
  change ((10 <=? 255) && (255 <=? 170)) with false.
  change (255 =? 255) with true. cbv iota.
  rewrite E. change (STATUS_READY =? STATUS_READY) with true. cbv iota.
  now rewrite start_fan_status, E.
Qed.

Lemma start_twice (s : State) :
  SPI_STC_vect 255 (SPI_STC_vect 255 s) = SPI_STC_vect 255 s.
Proof.
  destruct (Z.eqb_spec (current_spi_status s) STATUS_READY) as [E|E].
  - rewrite (SPI_STC_vect_start s E).
    assert (E' : current_spi_status (set_SPDR STATUS_READY (start_fan s))
                 = STATUS_READY).
    { generalize (start_fan_status s). generalize (start_fan s).
      intros t Et. fields. now rewrite Et. }
    rewrite (SPI_STC_vect_start _ E'), start_fan_again.
    generalize (start_fan s). intros t. destruct t; records; reflexivity.
  - rewrite (SPI_STC_vect_not_ready s E).
    rewrite SPI_STC_vect_not_ready by (fields; assumption).
    destruct s; records; reflexivity.
Qed.

(** X9.  Handling the same byte twice in a row leaves the state that
    handling it once leaves, for every byte and every state: a repeated
    RESET, START, angle or poll byte has no further effect. *)
Theorem X9_byte_twice (b : Z) (s : State) :
  SPI_STC_vect b (SPI_STC_vect b s) = SPI_STC_vect b s.
Proof.
  destruct (Z.eqb_spec b 200) as [->|N200]; [apply reset_twice|].
  destruct (Z.eqb_spec b 255) as [->|N255]; [apply start_twice|].
  destruct (Z.leb_spec 10 b) as [L|L], (Z.leb_spec b 170) as [U|U].
  2-4: rewrite !SPI_STC_vect_other by lia; destruct s; records; reflexivity.
  unfold SPI_STC_vect. cbv zeta.
  apply Z.eqb_neq in N200. apply Z.leb_le in L, U.
  rewrite N200, L, U. cbn [andb]. cbv iota.
  destruct ((user_ready_flag s =? 1) && (motor_running s =? 1)) eqn:G;
    fields; rewrite G;
    generalize (uint16 (angle_to_ocr b));
    intros v; destruct s; records; reflexivity.
Qed.

(** ** START right after RESET *)

Lemma SPI_STC_vect_reset_flags (s : State) :
  user_ready_flag (SPI_STC_vect 200 s) = 0
  /\ servo_homing_required (SPI_STC_vect 200 s) = 1.
Proof.
  unfold SPI_STC_vect. cbv zeta. change (200 =? 200) with true. cbv iota.
  destruct (motor_running s =? 0); frames; fields; split; reflexivity.
Qed.

Lemma SPI_STC_vect_angle_unready (b : Z) (s : State) :
  10 <= b <= 170 -> user_ready_flag s <> 1 ->
  SPI_STC_vect b s = set_SPDR (current_spi_status s) s.
Proof.
  intros Hb Hr. unfold SPI_STC_vect. cbv zeta.
  destruct (Z.eqb_spec b 200); [lia|].
  destruct (Z.leb_spec 10 b); [|lia].
  destruct (Z.leb_spec b 170); [|lia].
  apply Z.eqb_neq in Hr. rewrite Hr. reflexivity.
Qed.

(** X10.  The handler gates START on the stored status alone.  When the
    stored status is READY, a RESET followed by START before the main loop
    has run again starts the fan although RESET cleared [user_ready_flag]:
    the motor runs with the user not ready and homing requested, and in
    that state every angle byte leaves the target alone. *)
Theorem X10_start_after_reset (s : State) :
  current_spi_status s = 111 ->
  let s' := SPI_STC_vect 255 (SPI_STC_vect 200 s) in
  motor_running s' = 1 /\ user_ready_flag s' = 0
  /\ servo_homing_required s' = 1
  /\ forall b, 10 <= b <= 170 ->
       servo_target_ocr (SPI_STC_vect b s') = servo_target_ocr s'.
Proof.
  intros E s'.
  destruct (SPI_STC_vect_reset_flags s) as [R1 R2].
  assert (E' : current_spi_status (SPI_STC_vect 200 s) = STATUS_READY).
  { rewrite (proj1 (SPI_STC_vect_status 200 s)). exact E. }
  assert (F : motor_running s' = 1 /\ user_ready_flag s' = 0
              /\ servo_homing_required s' = 1).
  { unfold s'. rewrite (SPI_STC_vect_start _ E').
    revert R1 R2. generalize (SPI_STC_vect 200 s). intros t R1 R2.
    destruct (start_fan_frame t) as [led ->]. fields.
    repeat split; assumption. }
  destruct F as (F1 & F2 & F3). clearbody s'.
  repeat split; try assumption.
  intros b Hb. rewrite SPI_STC_vect_angle_unready by (try assumption; lia).
  reflexivity.
Qed.

Lemma X10_start_after_reset_witness :
  motor_running (SPI_STC_vect 255 (SPI_STC_vect 200 st_ready)) = 1
  /\ user_ready_flag (SPI_STC_vect 255 (SPI_STC_vect 200 st_ready)) = 0.
Proof.
  assert (E : current_spi_status st_ready = 111) by (vm_compute; reflexivity).
  pose proof (X10_start_after_reset st_ready E) as (A & B & _).
  split; assumption.
Defined.

(** ** The angle command's arithmetic *)

Lemma angle_to_ocr_div (b : Z) :
  10 <= b ->
  angle_to_ocr b = (b - 10) * 470 / 160 + 140.
Proof.
  intros Hb. unfold angle_to_ocr. consts.
  rewrite Z.quot_div_nonneg by lia. reflexivity.
Qed.

Lemma angle_to_ocr_next (b : Z) :
  10 <= b ->
  2 <= angle_to_ocr (b + 1) - angle_to_ocr b <= 3.
Proof.
  intros Hb. rewrite !angle_to_ocr_div by lia.
  set (a := (b - 10) * 470).
  replace ((b + 1 - 10) * 470) with (a + 470) by (unfold a; lia).
  assert (L : a / 160 + 2 <= (a + 470) / 160).
  { replace (a / 160 + 2) with ((a + 2 * 160) / 160)
      by (rewrite Z.div_add by lia; reflexivity).
    apply Z.div_le_mono; lia. }
  assert (U : (a + 470) / 160 <= a / 160 + 3).
  { replace (a / 160 + 3) with ((a + 3 * 160) / 160)
      by (rewrite Z.div_add by lia; reflexivity).
    apply Z.div_le_mono; lia. }
  lia.
Qed.

Lemma angle_to_ocr_mono (b1 b2 : Z) :
  10 <= b1 -> b1 <= b2 -> angle_to_ocr b1 <= angle_to_ocr b2.
Proof.
  intros H1 H2. rewrite !angle_to_ocr_div by lia.
  apply Z.add_le_mono_r, Z.div_le_mono; lia.
Qed.

(** X11.  The pulse width computed for an angle byte grows strictly with
    the byte: one degree more gives 2 or 3 counts more, byte 10 gives the
    counter-clockwise limit 140 and byte 170 the clockwise limit 610.  The
    product formed before the division stays below 2^31, so the [long]
    arithmetic does not overflow, and the result is stored into the 16-bit
    target without wrap-around. *)
Theorem X11_angle_mapping (b1 b2 : Z) :
  10 <= b1 -> b1 < b2 -> b2 <= 170 ->
  angle_to_ocr b1 < angle_to_ocr b2
  /\ 2 <= angle_to_ocr (b1 + 1) - angle_to_ocr b1 <= 3
  /\ angle_to_ocr 10 = SERVO_CCW_MAX
  /\ angle_to_ocr 170 = SERVO_CW_MAX
  /\ 0 <= (b1 - 10) * (SERVO_CW_MAX - SERVO_CCW_MAX) < 2 ^ 31
  /\ uint16 (angle_to_ocr b1) = angle_to_ocr b1.
Proof.
  intros H1 H2 H3.
  pose proof (angle_to_ocr_next b1 H1) as N.
  pose proof (angle_to_ocr_mono (b1 + 1) b2 ltac:(lia) ltac:(lia)) as M.
  pose proof (angle_to_ocr_range b1 ltac:(lia)) as R.
  split; [lia|]. split; [exact N|].
  split; [reflexivity|]. split; [reflexivity|].
  split; [consts; lia|].
  apply uint16_small. lia.
Qed.

Lemma X11_angle_mapping_witness :
  angle_to_ocr 90 < angle_to_ocr 91.
Proof.
  apply (X11_angle_mapping 90 91); lia.
Defined.

(** ** Buttons held down *)

(** With no transfer inside, the second half of a pass leaves the flags of
    the handler, the target and the toggle latch alone. *)
Lemma fan_state_block_frame (pind : Z) (s : State) :
  exists st o c h led d l p,
    fan_state_block pind [] s
    = set_current_spi_status st
        (set_OCR1A o
           (set_servo_current_ocr c
              (set_servo_homing_required h
                 (set_LED_PORT led
                    (set_OCR3A d
                       (set_speed_level l
                          (set_speed_button_pressed p s))))))).
Proof.
  unfold fan_state_block. cbv zeta.
  destruct (negb (motor_running s =? 0)).
  - destruct (speed_button_block_frame pind s) as (led & d & l & p & ->).
    match goal with
    | |- context [servo_track ?t] =>
        destruct (servo_track_frame t) as (o & c & ->)
    end.
    exists STATUS_RUNNING, o, c, (servo_homing_required s), led, d, l, p.
    destruct s; records; reflexivity.
  - destruct (servo_home_frame s) as (o & c & h & ->).
    rewrite stopped_status_frame.
    match goal with
    | |- context [set_current_spi_status ?v _] => generalize v; intros st
    end.
    exists st, o, c, h, (LED_PORT s), (OCR3A s), (speed_level s),
      (speed_button_pressed s).
    destruct s; records; reflexivity.
Qed.

Lemma toggle_first_pass (i : LoopInput) (s : State) :
  Inv s -> toggle_button_pressed s = 0 -> toggle_held i ->
  let s' := main_loop_body i s in
  user_ready_flag s' = 1 - user_ready_flag s
  /\ toggle_button_pressed s' = 1.
Proof.
  intros H Hl (Hp & Hr1 & Hr2). unfold main_loop_body. rewrite Hr1, Hr2.
  destruct (fan_state_block_frame (pind_speed i)
              (toggle_button_block (pind_toggle i) [] s))
    as (st & o & c & h & led & d & l & p & ->).
  fields. unfold toggle_button_block, delay_ms. cbn [fold_left]. cbv zeta.
  apply Z.eqb_neq in Hp. rewrite Hp, Hl. cbn [negb Z.eqb]. cbv iota. fields.
  destruct (inv_ready s H) as [E|E]; rewrite E; cbn [Z.eqb Pos.eqb]; cbv iota.
  - fields. split; reflexivity.
  - destruct (motor_running s =? 0); frames; fields; split; reflexivity.
Qed.

Lemma toggle_later_pass (i : LoopInput) (s : State) :
  toggle_button_pressed s <> 0 -> toggle_held i ->
  let s' := main_loop_body i s in
  user_ready_flag s' = user_ready_flag s
  /\ toggle_button_pressed s' = toggle_button_pressed s.
Proof.
  intros Hl (Hp & Hr1 & Hr2). unfold main_loop_body. rewrite Hr1, Hr2.
  assert (E : toggle_button_block (pind_toggle i) [] s = s).
  { unfold toggle_button_block.
    apply Z.eqb_neq in Hp, Hl. now rewrite Hp, Hl. }
  rewrite E.
  destruct (fan_state_block_frame (pind_speed i) s)
    as (st & o & c & h & led & d & l & p & ->).
  fields. split; reflexivity.
Qed.

(** X12.  Holding the toggle button down toggles once: over any number of
    consecutive passes that read the button pressed, starting with the
    latch clear, [user_ready_flag] is inverted exactly once, however long
    the button is held. *)
Theorem X12_toggle_once_per_press (s : State) (ins : list LoopInput) :
  reachable s ->
  toggle_button_pressed s = 0 ->
  ins <> [] ->
  Forall toggle_held ins ->
  user_ready_flag (run_loop ins s) = 1 - user_ready_flag s
  /\ toggle_button_pressed (run_loop ins s) = 1.
Proof.
  intros Hs Hl Hne Hall. apply reachable_Inv in Hs.
  destruct ins as [|i ins]; [contradiction|].
  inversion Hall as [|i' ins' Hi Hins]; subst. rewrite run_loop_cons.
  destruct (toggle_first_pass i s Hs Hl Hi) as [A B].
  rewrite <- A. clear A Hs Hl Hne Hall Hi.
  revert B. generalize (main_loop_body i s). clear s i.
  induction ins as [|j ins IH]; intros t B; [split; [reflexivity|exact B]|].
  inversion Hins as [|j' ins' Hj Hins']; subst. rewrite run_loop_cons.
  destruct (toggle_later_pass j t ltac:(lia) Hj) as [A' B'].
  rewrite <- A'. apply IH; [assumption|]. now rewrite B'.
Qed.

Lemma X12_toggle_once_per_press_witness :
  user_ready_flag (run_loop (repeat (poll 2 0) 40%nat) initial_state) = 1.
Proof.
  refine (proj1 (X12_toggle_once_per_press initial_state
                   (repeat (poll 2 0) 40%nat) reachable_initial eq_refl _ _)).
  - discriminate.
  - apply Forall_forall. intros x Hx. apply repeat_spec in Hx. subst x.
    repeat split. vm_compute. discriminate.
Defined.

Lemma speed_later_pass (i : LoopInput) (s : State) :
  motor_running s <> 0 -> speed_button_pressed s <> 0 -> speed_held i ->
  let s' := main_loop_body i s in
  speed_level s' = speed_level s
  /\ OCR3A s' = OCR3A s
  /\ motor_running s' = motor_running s
  /\ speed_button_pressed s' = speed_button_pressed s.
Proof.
  intros Hm Hl (Hp1 & Hp2 & Hr1 & Hr2). unfold main_loop_body.
  rewrite toggle_button_block_released, Hr2 by assumption.
  unfold fan_state_block. cbv zeta. fields.
  apply Z.eqb_neq in Hm, Hp2, Hl. rewrite Hm. cbn [negb]. cbv iota.
  unfold speed_button_block. rewrite Hp2. fields. rewrite Hl.
  cbn [negb]. cbv iota.
  match goal with
  | |- context [servo_track ?t] =>
      destruct (servo_track_frame t) as (o & c & ->)
  end.
  fields. repeat split; reflexivity.
Qed.

(** X13.  Holding the speed button down advances the level once: with the
    motor running and the latch clear, over any number of consecutive
    passes that read the speed button pressed (toggle button released) the
    level becomes [(speed_level + 1) mod 3] and the duty register the
    table entry of that level, however long the button is held. *)
Theorem X13_speed_once_per_press (s : State) (ins : list LoopInput) :
  reachable s ->
  motor_running s <> 0 ->
  speed_button_pressed s = 0 ->
  ins <> [] ->
  Forall speed_held ins ->
  speed_level (run_loop ins s) = (speed_level s + 1) mod 3
  /\ OCR3A (run_loop ins s) = duty_table ((speed_level s + 1) mod 3)
  /\ motor_running (run_loop ins s) = motor_running s.
Proof.
  intros Hs Hm Hl Hne Hall. apply reachable_Inv in Hs.
  destruct ins as [|i ins]; [contradiction|].
  inversion Hall as [|i' ins' Hi Hins]; subst. rewrite run_loop_cons.
  destruct i as [p1 r1 p2 r2]. destruct Hi as (Hp1 & Hp2 & Hr1 & Hr2).
  cbn [pind_toggle pind_speed rx_toggle rx_speed] in *. subst r1 r2.
  destruct (speed_press_pass p1 p2 s Hs Hm Hp1 Hp2 Hl) as (A & B & C & D).
  fold (poll p1 p2). rewrite <- A, <- B, <- C.
  assert (Hm' : motor_running (main_loop_body (poll p1 p2) s) <> 0)
    by now rewrite C.
  assert (Hl' : speed_button_pressed (main_loop_body (poll p1 p2) s) <> 0)
    by (rewrite D; discriminate).
  clear A B C D Hs Hm Hl Hne Hall Hp1 Hp2.
  revert Hm' Hl'. generalize (main_loop_body (poll p1 p2) s). clear s p1 p2.
  induction ins as [|j ins IH]; intros t Hm Hl; [repeat split|].
  inversion Hins as [|j' ins' Hj Hins']; subst. rewrite run_loop_cons.
  destruct (speed_later_pass j t Hm Hl Hj) as (A & B & C & D).
  rewrite <- A, <- B, <- C.
  apply IH; [assumption|now rewrite C|now rewrite D].
Qed.

Lemma X13_speed_once_per_press_witness :
  speed_level (run_loop (repeat (poll 0 1) 25%nat) st_running) = 1.
Proof.
  assert (Hm : motor_running st_running <> 0) by (vm_compute; discriminate).
  assert (Hl : speed_button_pressed st_running = 0)
    by (vm_compute; reflexivity).
  assert (Hall : Forall speed_held (repeat (poll 0 1) 25%nat)).
  { apply Forall_forall. intros x Hx. apply repeat_spec in Hx. subst x.
    repeat split. vm_compute. discriminate. }
  assert (Hne : repeat (poll 0 1) 25%nat <> []) by discriminate.
  rewrite (proj1 (X13_speed_once_per_press st_running _ (reachable_run _)
                    Hm Hl Hne Hall)).
  vm_compute. reflexivity.
Defined.

(** ** The buttons cannot start the fan *)

Lemma stopped_undisturbed_pass (i : LoopInput) (s : State) :
  motor_running s = 0 -> undisturbed i ->
  let s' := main_loop_body i s in
  motor_running s' = 0
  /\ speed_level s' = speed_level s
  /\ OCR3A s' = OCR3A s
  /\ TCCR3A s' = TCCR3A s
  /\ TCCR3B s' = TCCR3B s
  /\ LED_PORT s' = LED_PORT s.
Proof.
  intros Hm (Hr1 & Hr2). unfold main_loop_body. rewrite Hr1, Hr2.
  assert (E : exists l r g h,
             toggle_button_block (pind_toggle i) [] s
             = set_servo_homing_required h
                 (set_servo_target_ocr g
                    (set_user_ready_flag r
                       (set_toggle_button_pressed l s)))).
  { unfold toggle_button_block, delay_ms. cbn [fold_left]. cbv zeta. fields.
    rewrite Hm. cbn [Z.eqb]. cbv iota.
    repeat break_if; destruct s; records; do 4 eexists; records;
      reflexivity. }
  destruct E as (l & r & g & h & ->).
  unfold fan_state_block. cbv zeta. fields. rewrite Hm.
  cbn [Z.eqb negb]. cbv iota.
  match goal with
  | |- context [servo_home ?t] =>
      destruct (servo_home_frame t) as (o & c & h' & ->)
  end.
  rewrite stopped_status_frame. fields.
  repeat split; try reflexivity; assumption.
Qed.

(** X14.  No button can start the fan.  From a state with the motor
    stopped, over any passes during which no transfer completes and
    whatever the two buttons read, the motor stays stopped and the speed
    level, the timer-3 control and duty registers and the LED port keep
    their values. *)
Theorem X14_buttons_never_start (s : State) (ins : list LoopInput) :
  motor_running s = 0 ->
  Forall undisturbed ins ->
  let s' := run_loop ins s in
  motor_running s' = 0
  /\ speed_level s' = speed_level s
  /\ OCR3A s' = OCR3A s
  /\ TCCR3A s' = TCCR3A s
  /\ TCCR3B s' = TCCR3B s
  /\ LED_PORT s' = LED_PORT s.
Proof.
  revert s. induction ins as [|i ins IH]; intros s Hm Hall.
  - repeat split; assumption.
  - inversion Hall as [|i' ins' Hi Hins]; subst. rewrite run_loop_cons.
    destruct (stopped_undisturbed_pass i s Hm Hi) as (A & B & C & D & E & F).
    destruct (IH (main_loop_body i s) A Hins) as (A' & B' & C' & D' & E' & F').
    cbv zeta. rewrite A', B', C', D', E', F', B, C, D, E, F.
    repeat split.
Qed.

Lemma X14_buttons_never_start_witness :
  motor_running
    (run_loop [poll 2 1; poll 0 1; poll 3 0; poll 0 0; poll 2 1]
       st_reset_off_centre) = 0.
Proof.
  refine (proj1 (X14_buttons_never_start st_reset_off_centre _ _ _)).
  - vm_compute. reflexivity.
  - repeat constructor.
Defined.

(** ** Set-up of the pins *)

(** X15.  Whatever the configuration registers held before, after the
    set-up calls of [main] port B has the servo pin and MISO as outputs and
    SS, SCK and MOSI as inputs, the SPI set-up leaving the servo pin as the
    port set-up made it; the three LED pins and the fan pin are outputs,
    the two button pins are inputs, the SPI and its interrupt are enabled,
    the servo timer has its output, mode and clock bits set and counts to
    4999.  No other bit of these registers is changed. *)
Theorem X15_setup_pins (c : Config) (k : Z) :
  0 <= k ->
  let c' := main_config c in
  Z.testbit (DDRB c') k
  = (if (k =? SERVO_PIN) || (k =? SPI_PIN_MISO) then true
     else if (k =? SPI_PIN_SS) || (k =? SPI_PIN_SCK) || (k =? SPI_PIN_MOSI)
          then false
          else Z.testbit (DDRB c) k)
  /\ Z.testbit (DDRC c') k
     = ((k =? LED_LOW_PIN) || (k =? LED_MEDIUM_PIN) || (k =? LED_HIGH_PIN)
        || Z.testbit (DDRC c) k)
  /\ Z.testbit (DDRD c') k
     = (negb ((k =? SWITCH_SPEED_PIN) || (k =? SWITCH_TOGGLE_PIN))
        && Z.testbit (DDRD c) k)
  /\ Z.testbit (DDRE c') k = ((k =? FAN_PWM_PIN) || Z.testbit (DDRE c) k)
  /\ Z.testbit (SPCR c') k
     = ((k =? SPE) || (k =? SPIE) || Z.testbit (SPCR c) k)
  /\ Z.testbit (TCCR1A c') k
     = ((k =? COM1A1) || (k =? WGM11) || Z.testbit (TCCR1A c) k)
  /\ Z.testbit (TCCR1B c') k
     = ((k =? WGM13) || (k =? WGM12) || (k =? CS11) || (k =? CS10)
        || Z.testbit (TCCR1B c) k)
  /\ ICR1 c' = 4999.
Proof.
  intros Hk c'. unfold c', main_config, init_spi_slave, init_timer1_servo,
    init_ports. cbv zeta. cbn [DDRB DDRC DDRD DDRE SPCR TCCR1A TCCR1B ICR1].
  pins. bitwise.
  destruct (Z.eqb_spec k 0); destruct (Z.eqb_spec k 1);
    destruct (Z.eqb_spec k 2); destruct (Z.eqb_spec k 3);
    destruct (Z.eqb_spec k 4);
    destruct (Z.eqb_spec k 5); destruct (Z.eqb_spec k 6);
    destruct (Z.eqb_spec k 7); try lia;
    cbn [negb andb orb];
    rewrite ?orb_true_r, ?orb_false_r, ?andb_true_r, ?andb_false_r;
    repeat split; reflexivity.
Qed.

Lemma X15_setup_pins_witness :
  Z.testbit (DDRB (main_config (mkConfig 255 0 255 0 0 0 0 0))) 5 = true
  /\ Z.testbit (DDRB (main_config (mkConfig 255 0 255 0 0 0 0 0))) 1 = false.
Proof.
  split.
  - rewrite (proj1 (X15_setup_pins (mkConfig 255 0 255 0 0 0 0 0) 5
                      ltac:(lia))).
    reflexivity.
  - rewrite (proj1 (X15_setup_pins (mkConfig 255 0 255 0 0 0 0 0) 1
                      ltac:(lia))).
    reflexivity.
Defined.

(** ** Homing completes *)

Lemma homing_flag_passes (ins : list LoopInput) (s : State) :
  Inv s -> motor_running s = 0 ->
  homing_armed s = true
  \/ (servo_current_ocr s = SERVO_CENTER /\ servo_homing_required s = 0) ->
  Forall released ins ->
  servo_homing_required (run_loop ins s)
  = if Z.abs (SERVO_CENTER - servo_current_ocr s) <? Z.of_nat (length ins)
    then 0 else servo_homing_required s.
Proof.
  revert s. induction ins as [|i ins IH]; intros s H Hm Ha Hall.
  - cbn [run_loop fold_left length Z.of_nat].
    destruct (Z.ltb_spec (Z.abs (SERVO_CENTER - servo_current_ocr s)) 0);
      [lia|reflexivity].
  - inversion Hall as [|i' ins' Hi Hins]; subst. rewrite run_loop_cons.
    destruct (stopped_pass i s H Hm Hi) as (A & B & C & D & E & _).
    pose proof (Inv_main_loop_body i s H) as H1.
    pose proof (inv_current s H) as Hc. consts.
    cbn [length]. rewrite Nat2Z.inj_succ.
    destruct (Z.eqb_spec (servo_current_ocr s) 375) as [Ec|Ec].
    + assert (E0 : servo_homing_required (main_loop_body i s) = 0).
      { rewrite E. destruct (homing_armed s); cbn [andb]; [reflexivity|].
        destruct Ha as [Ha|[_ Ha]]; [discriminate|exact Ha]. }
      assert (D0 : servo_current_ocr (main_loop_body i s) = 375).
      { rewrite D, Ec. destruct (homing_armed s); reflexivity. }
      rewrite (IH _ H1 A) by (try assumption; right; split; assumption).
      rewrite E0, D0, Ec.
      destruct (Z.ltb_spec (Z.abs (375 - 375)) (Z.of_nat (length ins)));
        destruct (Z.ltb_spec (Z.abs (375 - 375)) (Z.succ (Z.of_nat (length ins))));
        try reflexivity; lia.
    + destruct Ha as [Ha|[Ha _]]; [|contradiction].
      rewrite Ha in D, E. rewrite andb_false_r in E.
      assert (Ha1 : homing_armed (main_loop_body i s) = true)
        by (unfold homing_armed in *; now rewrite B, E).
      rewrite (IH _ H1 A (or_introl Ha1) Hins), D, E.
      unfold toward.
      destruct (Z.ltb_spec (servo_current_ocr s) 375);
        [|destruct (Z.ltb_spec 375 (servo_current_ocr s)); [|lia]];
        repeat match goal with
               | |- context [?a <? ?b] => destruct (Z.ltb_spec a b)
               end; try reflexivity; lia.
Qed.

(** X16.  Homing completes.  From a reachable state with the motor
    stopped and homing requested or the user ready, over passes with the
    toggle button released and no command, once more than |375 - current|
    passes have run the servo stands at 375, [servo_homing_required] is
    clear and the status is READY if the user is ready and HOMING_OFF
    otherwise. *)
Theorem X16_homing_completes (s : State) (ins : list LoopInput) :
  reachable s ->
  motor_running s = 0 ->
  servo_homing_required s <> 0 \/ user_ready_flag s <> 0 ->
  Forall released ins ->
  Z.abs (375 - servo_current_ocr s) < Z.of_nat (length ins) ->
  let s' := run_loop ins s in
  servo_current_ocr s' = 375
  /\ servo_homing_required s' = 0
  /\ current_spi_status s' = (if user_ready_flag s =? 1 then 111 else 0).
Proof.
  intros Hs Hm Ha Hall Hn s'. apply reachable_Inv in Hs.
  assert (Ha' : homing_armed s = true).
  { unfold homing_armed.
    destruct (Z.eqb_spec (servo_homing_required s) 0) as [E|E];
      [|reflexivity].
    destruct (inv_ready s Hs) as [E'|E']; [lia|].
    rewrite E'. reflexivity. }
  destruct (homing_passes ins s Hs Hm (or_introl Ha') Hall) as (A & B & _ & D).
  pose proof (homing_flag_passes ins s Hs Hm (or_introl Ha') Hall) as F.
  fold s' in A, B, D, F. consts.
  destruct (toward_n_arrival 375 (servo_current_ocr s)
              (Z.of_nat (length ins)) ltac:(lia)) as [P _].
  assert (C : servo_current_ocr s' = 375) by (rewrite D; apply P; lia).
  split; [exact C|]. split.
  { rewrite F. apply Z.ltb_lt in Hn. now rewrite Hn. }
  assert (St : current_spi_status s' = status_for s').
  { unfold s'. destruct ins as [|i ins]; [cbn [length Z.of_nat] in Hn; lia|].
    inversion Hall as [|i' ins' Hi Hins]; subst. rewrite run_loop_cons.
    apply status_passes; [|assumption].
    destruct Hi as (_ & _ & Hr2). unfold main_loop_body. rewrite Hr2.
    apply fan_state_block_status. }
  rewrite St. unfold status_for. rewrite A, B, C. consts.
  change (0 =? 0) with true. change (375 =? 375) with true.
  cbn [negb]. now rewrite andb_true_r.
Qed.

Lemma X16_homing_completes_witness :
  servo_homing_required
    (run_loop (repeat (poll 0 0) 3%nat) st_reset_off_centre) = 0.
Proof.
  refine (proj1 (proj2 (X16_homing_completes st_reset_off_centre
                          (repeat (poll 0 0) 3%nat) (reachable_run _) _ _
                          (released_repeat_poll 0 3) _))).
  - vm_compute. reflexivity.
  - left. vm_compute. discriminate.
  - vm_compute. reflexivity.
Defined.
